(** * Authorization core of the lost-and-found backend

    A shallow embedding of [middleware/auth.ts] (token verification, the
    per-request permission reconciliation, the permission guards) and of
    the guarded routes of [routes/delivered-items.routes.ts],
    [routes/items.routes.ts] and [routes/permission.routes.ts].

    The document store is modelled as finite maps from [_id] to document
    (a MongoDB collection has a unique index on [_id]); every store
    operation is total, so the model has no storage faults. *)

From Stdlib Require Import ZArith String Ascii Bool List.
From stdpp Require Import base option list strings gmap fin_maps.

Local Open Scope string_scope.

(** ** Strings as JavaScript uses them *)

(** [s.replace(pat, rep)] with a string pattern: the first occurrence only. *)
Fixpoint replace (pat rep s : string) : string :=
  if String.prefix pat s
  then String.append rep
         (String.substring (String.length pat)
            (String.length s - String.length pat) s)
  else match s with
       | EmptyString => EmptyString
       | String c s' => String c (replace pat rep s')
       end.

(** [arr.includes(x)] on an array of strings. *)
Definition includes (arr : list string) (x : string) : bool :=
  existsb (String.eqb x) arr.

(** ** ObjectId (bson)

    An ObjectId is kept as what [toString()] returns: 24 lower-case hex
    digits.  [new Types.ObjectId(s)] accepts a string of 24 hex digits and
    throws on anything else; [None] stands for the throw. *)

Definition ObjectId := string.

Definition is_hex_digit (c : ascii) : bool :=
  let n := nat_of_ascii c in
  (Nat.leb 48 n && Nat.leb n 57) || (Nat.leb 97 n && Nat.leb n 102)
  || (Nat.leb 65 n && Nat.leb n 70).

Definition hex_to_lower (c : ascii) : ascii :=
  let n := nat_of_ascii c in
  if Nat.leb 65 n && Nat.leb n 70 then ascii_of_nat (n + 32) else c.

Fixpoint string_forallb (f : ascii -> bool) (s : string) : bool :=
  match s with
  | EmptyString => true
  | String c s' => f c && string_forallb f s'
  end.

Fixpoint string_map (f : ascii -> ascii) (s : string) : string :=
  match s with
  | EmptyString => EmptyString
  | String c s' => String (f c) (string_map f s')
  end.

Definition new_ObjectId (s : string) : option ObjectId :=
  if Nat.eqb (String.length s) 24 && string_forallb is_hex_digit s
  then Some (string_map hex_to_lower s)
  else None.

(** ** jsonwebtoken

    The payload the application signs, and what [jwt.verify] sees once a
    compact token string is split and base64-decoded.  The HMAC itself is
    abstracted: [jwt_key] is the secret under which the signature checks. *)

Record JwtPayload := mkJwtPayload {
  jp_id : string;                      (* _id *)
  jp_employeeNumber : string;          (* employeeNumber *)
  jp_role : string;                    (* role *)
  jp_permissions : option (list string) (* permissions? *)
}.

Record Jwt := mkJwt {
  jwt_alg : string;
  jwt_key : string;
  jwt_nbf : option Z;
  jwt_exp : option Z;
  jwt_payload : JwtPayload
}.

Inductive JwtError :=
| JsonWebTokenError (message : string)
| NotBeforeError
| TokenExpiredError.

Record Env := mkEnv {
  JWT_SECRET : option string;   (* process.env.JWT_SECRET *)
  clockTimestamp : Z            (* seconds since the epoch at the request *)
}.

(** [process.env.JWT_SECRET || 'your-secret-key'] *)
Definition secretOrKey (env : Env) : string :=
  match JWT_SECRET env with
  | None => "your-secret-key"
  | Some "" => "your-secret-key"
  | Some s => s
  end.

Section Verify.
(** Splitting and decoding the compact serialization; [None] is a
    malformed token. *)
Variable jwt_decode : string -> option Jwt.

(** [jwt.verify(token, secret, { algorithms })]: the checks in the order
    the library makes them. *)
Definition jwt_verify (now : Z) (token secret : string)
    (algorithms : list string) : JwtError + JwtPayload :=
  match jwt_decode token with
  | None => inl (JsonWebTokenError "jwt malformed")
  | Some t =>
    if negb (includes algorithms (jwt_alg t))
    then inl (JsonWebTokenError "invalid algorithm")
    else if negb (String.eqb (jwt_key t) secret)
    then inl (JsonWebTokenError "invalid signature")
    else
      let checked_exp :=
        match jwt_exp t with
        | Some exp =>
          if (exp <=? now)%Z then inl TokenExpiredError
          else inr (jwt_payload t)
        | None => inr (jwt_payload t)
        end in
      match jwt_nbf t with
      | Some nbf => if (now <? nbf)%Z then inl NotBeforeError else checked_exp
      | None => checked_exp
      end
  end.
End Verify.


(** ** Documents and collections *)

(** A Permission document (models/Permission), keyed by its [_id]. *)
Record PermissionDoc := mkPermissionDoc {
  name : string;
  description : string;
  component : string;
  action : string
}.

(** A User document (models/User) without its secret: [permissions] is the
    array of references into the Permission collection. *)
Record UserDoc := mkUserDoc {
  doc_employeeNumber : string;
  doc_firstName : string;
  doc_lastName : string;
  doc_role : string;
  doc_permissions : list ObjectId
}.

(** The fields of a stored delivered item and of a stored lost item under
    the names the routes use for them.  What the schemas of
    models/DeliveredItem.ts and models/LostItem.ts let a handler read of
    them is stated at each handler. *)
Record DeliveredItemDoc := mkDeliveredItemDoc {
  di_flightNumber : string;
  di_description : string;
  di_foundBy : ObjectId;
  di_archived : bool
}.

Record LostItemDoc := mkLostItemDoc {
  li_flightNumber : string;
  li_description : string;
  li_foundBy : ObjectId;
  li_status : string
}.

Record Store := mkStore {
  User : gmap ObjectId UserDoc;
  Permission : gmap ObjectId PermissionDoc;
  DeliveredItem : gmap ObjectId DeliveredItemDoc;
  LostItem : gmap ObjectId LostItemDoc
}.

(** ** What a request carries (auth.ts) *)

(** The [_id] of a grant seen by [matchesPermission]: an ObjectId object,
    or its string form. *)
Inductive IdValue :=
| IdObject (o : ObjectId)
| IdString (s : string).

Record IPermission := mkIPermission {
  _id : IdValue;
  perm_name : string          (* name *)
}.

(** [type Permission = string | IPermission] *)
Inductive PermissionT :=
| PString (s : string)
| PObject (p : IPermission).

(** [req.user] *)
Record ReqUser := mkReqUser {
  user_id : ObjectId;         (* _id *)
  employeeNumber : string;
  firstName : string;
  lastName : string;
  role : string;
  permissions : list PermissionT
}.

Record Request := mkRequest {
  header_Authorization : option string;   (* req.header('Authorization') *)
  params_id : string;                     (* req.params.id *)
  user : option ReqUser;                  (* req.user *)
  token : option string                   (* req.token *)
}.

Record Response := mkResponse {
  status : nat;
  message : string;
  code : option string
}.

(** A middleware either calls [next()] with the request as it left it, or
    answers. *)
Inductive Outcome :=
| Next (req : Request)
| Respond (res : Response).

Definition Middleware := Store -> Request -> Outcome * Store.
Definition Handler := Store -> Request -> Response * Store.

(** ** Mongoose queries used by the middleware and the routes *)

Definition set_User (f : gmap ObjectId UserDoc -> gmap ObjectId UserDoc)
    (db : Store) : Store :=
  mkStore (f (User db)) (Permission db) (DeliveredItem db) (LostItem db).

Definition set_Permission
    (f : gmap ObjectId PermissionDoc -> gmap ObjectId PermissionDoc)
    (db : Store) : Store :=
  mkStore (User db) (f (Permission db)) (DeliveredItem db) (LostItem db).

Definition set_DeliveredItem
    (f : gmap ObjectId DeliveredItemDoc -> gmap ObjectId DeliveredItemDoc)
    (db : Store) : Store :=
  mkStore (User db) (Permission db) (f (DeliveredItem db)) (LostItem db).

Definition set_LostItem
    (f : gmap ObjectId LostItemDoc -> gmap ObjectId LostItemDoc)
    (db : Store) : Store :=
  mkStore (User db) (Permission db) (DeliveredItem db) (f (LostItem db)).

Definition set_permissions (ids : list ObjectId) (u : UserDoc) : UserDoc :=
  mkUserDoc (doc_employeeNumber u) (doc_firstName u) (doc_lastName u)
            (doc_role u) ids.

(** A Permission document as a query returns it. *)
Definition hydrate (entry : ObjectId * PermissionDoc) : IPermission :=
  mkIPermission (IdObject entry.1) (name entry.2).

(** [Permission.find({})] *)
Definition Permission_find_all (db : Store) : list (ObjectId * PermissionDoc) :=
  map_to_list (Permission db).

(** [Permission.find({ name: { $in: names } })] *)
Definition Permission_find_name_in (names : list string) (db : Store)
    : list (ObjectId * PermissionDoc) :=
  List.filter (fun entry => includes names (name entry.2))
              (map_to_list (Permission db)).

(** [.populate('permissions')] on an array of references: each reference is
    replaced by the document it points to, and a reference to no document
    is dropped from the array. *)
Definition populate_ref (db : Store) (id : ObjectId) : option IPermission :=
  match Permission db !! id with
  | Some d => Some (hydrate (id, d))
  | None => None
  end.

Definition populate (db : Store) (ids : list ObjectId) : list IPermission :=
  omap (populate_ref db) ids.

(** A User document with [permissions] populated. *)
Record UserDocument := mkUserDocument {
  ud_id : ObjectId;
  ud_doc : UserDoc;
  ud_permissions : list IPermission
}.

Definition populated (db : Store) (id : ObjectId) (d : UserDoc) : UserDocument :=
  mkUserDocument id d (populate db (doc_permissions d)).

(** [user.toObject()], seen through the [as unknown as {...}] cast. *)
Definition toObject (u : UserDocument) : ReqUser :=
  mkReqUser (ud_id u)
            (doc_employeeNumber (ud_doc u)) (doc_firstName (ud_doc u))
            (doc_lastName (ud_doc u)) (doc_role (ud_doc u))
            (PObject <$> ud_permissions u).

(** [User.findOne({ _id, employeeNumber }).populate('permissions')] *)
Definition User_findOne (db : Store) (id : ObjectId) (employeeNumber : string)
    : option UserDocument :=
  match User db !! id with
  | Some d =>
    if String.eqb (doc_employeeNumber d) employeeNumber
    then Some (populated db id d)
    else None
  | None => None
  end.

(** [User.findByIdAndUpdate(id, update, { new: true }).populate('permissions')]:
    the updated document, or null when the id is unknown. *)
Definition User_findByIdAndUpdate (id : ObjectId) (update : UserDoc -> UserDoc)
    (db : Store) : option UserDocument * Store :=
  match User db !! id with
  | Some d =>
    let db' := set_User (insert id (update d)) db in
    (Some (populated db' id (update d)), db')
  | None => (None, db)
  end.

(** [{ $set: { permissions: ids } }] *)
Definition update_set_permissions (ids : list ObjectId) : UserDoc -> UserDoc :=
  set_permissions ids.

(** [{ $push: { permissions: { $each: docs } } }]: the documents are cast to
    their [_id] and appended. *)
Definition update_push_permissions (docs : list (ObjectId * PermissionDoc))
    : UserDoc -> UserDoc :=
  fun u => set_permissions (doc_permissions u ++ (fst <$> docs)) u.

(** [User.updateMany({ permissions: id }, { $pull: { permissions: id } })] *)
Definition User_updateMany_pull (id : ObjectId) (db : Store) : Store :=
  set_User (fmap (fun u =>
    if bool_decide (id ∈ doc_permissions u)
    then set_permissions
           (List.filter (fun x => negb (String.eqb x id)) (doc_permissions u)) u
    else u)) db.

(** ** middleware/auth.ts *)

Definition json (st : nat) (msg : string) (c : option string) : Response :=
  mkResponse st msg c.

Definition matchesPermission (permission : PermissionT) (permissionName : string)
    : bool :=
  match permission with
  | PString s => String.eqb s permissionName
  | PObject p =>
    match _id p with
    | IdObject _ => String.eqb (perm_name p) permissionName
    | IdString _ => String.eqb (perm_name p) permissionName
    end
  end.

(** The names the non-admin branch of [auth] looks up. *)
Definition requiredPermissionNames : list string :=
  ["view_dashboard"; "view_all_items"; "view_own_items"; "create_items";
   "edit_all_items"; "edit_own_items"; "delete_all_items"; "delete_own_items";
   "manage_users"; "generate_reports"; "deliver_items"; "view_delivered_items";
   "view_own_delivered_items"; "revert_delivered_status"].

Definition with_user (req : Request) (u : option ReqUser) (tok : string)
    : Request :=
  mkRequest (header_Authorization req) (params_id req) u (Some tok).

Section Auth.
Variable jwt_decode : string -> option Jwt.
Variable env : Env.

Definition auth : Middleware := fun db req =>
  match replace "Bearer " "" <$> header_Authorization req with
  | None | Some "" =>
    (Respond (json 401 "No authentication token provided" (Some "NO_TOKEN")), db)
  | Some token =>
    match jwt_verify jwt_decode (clockTimestamp env) token (secretOrKey env)
                     ["HS256"] with
    | inl _ => (Respond (json 401 "Invalid token" (Some "INVALID_TOKEN")), db)
    | inr decoded =>
      match new_ObjectId (jp_id decoded) with
      | None => (Respond (json 401 "Invalid token" (Some "INVALID_TOKEN")), db)
      | Some oid =>
        match User_findOne db oid (jp_employeeNumber decoded) with
        | None => (Respond (json 401 "User not found" (Some "USER_NOT_FOUND")), db)
        | Some user =>
          if String.eqb (doc_role (ud_doc user)) "admin" then
            let allPermissions := Permission_find_all db in
            let '(updatedUser, db') :=
              User_findByIdAndUpdate (ud_id user)
                (update_set_permissions (fst <$> allPermissions)) db in
            (Next (with_user req (toObject <$> updatedUser) token), db')
          else
            let requiredPermissions :=
              Permission_find_name_in requiredPermissionNames db in
            let userPermissions := perm_name <$> ud_permissions user in
            let missingPermissions :=
              List.filter (fun permission =>
                             negb (includes userPermissions (name permission.2)))
                          requiredPermissions in
            let db' :=
              if Nat.ltb 0 (length missingPermissions)
              then (User_findByIdAndUpdate (ud_id user)
                      (update_push_permissions missingPermissions) db).2
              else db in
            let userObject := toObject user in
            (Next (with_user req (Some userObject) token), db')
        end
      end
    end
  end.
End Auth.

Definition PERMISSION_DENIED : Response :=
  json 403 "You do not have permission to access this page"
       (Some "PERMISSION_DENIED").

Definition hasPermission (permissionName : string) : Middleware := fun db req =>
  match user req with
  | None => (Respond PERMISSION_DENIED, db)
  | Some user =>
    let hasSpecificPermission :=
      existsb (fun p => matchesPermission p permissionName) (permissions user) in
    if hasSpecificPermission then (Next req, db)
    else (Respond PERMISSION_DENIED, db)
  end.

Definition hasAnyPermission (permissionNames : list string) : Middleware :=
  fun db req =>
  match user req with
  | Some user =>
    if String.eqb (role user) "admin" then (Next req, db)
    else if negb (existsb (fun p =>
                    existsb (fun name => matchesPermission p name) permissionNames)
                  (permissions user))
    then (Respond PERMISSION_DENIED, db)
    else (Next req, db)
  | None => (Respond PERMISSION_DENIED, db)
  end.

Definition checkOwnership (resourceId userId : string) : bool :=
  String.eqb resourceId userId.

(** ** Express routing: [router.verb(path, m1, ..., mk, handler)] *)

Fixpoint run (mws : list Middleware) : Middleware := fun db req =>
  match mws with
  | [] => (Next req, db)
  | m :: rest =>
    match m db req with
    | (Next req', db') => run rest db' req'
    | (Respond res, db') => (Respond res, db')
    end
  end.

Definition route (mws : list Middleware) (handler : Handler) : Handler :=
  fun db req =>
  match run mws db req with
  | (Next req', db') => handler db' req'
  | (Respond res, db') => (res, db')
  end.

(** A guard admits a request when it hands it on. *)
Definition admits (o : Outcome * Store) : bool :=
  match o.1 with
  | Next _ => true
  | Respond _ => false
  end.

(** JavaScript truthiness of a grant, for [p && matchesPermission(p, n)]. *)
Definition truthy (p : PermissionT) : bool :=
  match p with
  | PString "" => false
  | _ => true
  end.

Definition some_matches (ps : list PermissionT) (n : string) : bool :=
  existsb (fun p => truthy p && matchesPermission p n) ps.

(** ** routes/delivered-items.routes.ts

    The routes read [foundBy] on the items they load.  Image storage is an
    outside service and is left out. *)

Section Routes.
Variable jwt_decode : string -> option Jwt.
Variable env : Env.

(** [router.delete('/:id')].  The handler loads the item through
    models/DeliveredItem.ts, whose schema declares no [foundBy] path (it has
    [lostItem], [deliveredBy], the customer's fields, [signature],
    [deliveryDate] and [notes]): on the loaded document [item.foundBy] is
    undefined, so [item.foundBy.toString()] throws for every requester, and
    the [catch] answers 500.  The ownership test, the refusal and
    [item.deleteOne()] that follow in the text are never reached. *)
Definition delivered_delete_handler : Handler := fun db req =>
  match new_ObjectId (params_id req) with
  | None => (json 500 "Error al eliminar el item" None, db)
  | Some id =>
    match DeliveredItem db !! id with
    | None => (json 404 "Item entregado no encontrado" None, db)
    | Some item =>
      match user req with
      | None => (json 500 "Error al eliminar el item" None, db)
      | Some u =>
        let isAdmin := String.eqb (role u) "admin" in
        let hasDeleteAllPermission :=
          some_matches (permissions u) "delete_all_items" in
        (* const isOwner = item.foundBy.toString() === ...: TypeError *)
        (json 500 "Error al eliminar el item" None, db)
      end
    end
  end.

Definition delivered_delete : Handler :=
  route [auth jwt_decode env;
         hasAnyPermission ["delete_all_items"; "delete_own_items"]]
        delivered_delete_handler.

(** [router.post('/:id/revert', auth, hasPermission('admin'), ...)]: what
    stands before the handler. *)
Definition delivered_revert_guard : Middleware :=
  run [auth jwt_decode env; hasPermission "admin"].

(** ** routes/items.routes.ts *)

(** [router.delete('/:id', auth, ...)]: [auth] is the only middleware, and
    the handler holds no test on the requester.  [item.images] is an array
    under models/LostItem.ts, so the loop over it does not throw; the image
    service's failures are caught inside the loop. *)
Definition items_delete_handler : Handler := fun db req =>
  match new_ObjectId (params_id req) with
  | None => (json 500 "Error deleting item" None, db)
  | Some id =>
    match LostItem db !! id with
    | None => (json 404 "Item not found" None, db)
    | Some item =>
      (json 200 "Item deleted successfully" None, set_LostItem (delete id) db)
    end
  end.

Definition items_delete : Handler :=
  route [auth jwt_decode env] items_delete_handler.

(** ** routes/permission.routes.ts *)

Definition permission_delete_handler : Handler := fun db req =>
  match user req with
  | None => (json 500 "Error deleting permission" None, db)
  | Some requester =>
    match User db !! user_id requester with
    | None => (json 403 "Only admins can delete permissions" None, db)
    | Some u =>
      if negb (String.eqb (doc_role u) "admin")
      then (json 403 "Only admins can delete permissions" None, db)
      else
        match new_ObjectId (params_id req) with
        | None => (json 500 "Error deleting permission" None, db)
        | Some id =>
          match Permission db !! id with
          | None => (json 404 "Permission not found" None, db)
          | Some permission =>
            let db1 := set_Permission (delete id) db in
            (json 200 "Permission deleted successfully" None,
             User_updateMany_pull id db1)
          end
        end
    end
  end.

Definition permission_delete : Handler :=
  route [auth jwt_decode env] permission_delete_handler.
End Routes.

(** ** The composite guard the design states

    [role == admin OR has <action>_all_items OR
     (has <action>_own_items AND owns the resource)]. *)
Definition canActOnResource (action : string) (u : ReqUser) (foundBy : ObjectId)
    : bool :=
  String.eqb (role u) "admin"
  || some_matches (permissions u) (action ++ "_all_items")
  || (some_matches (permissions u) (action ++ "_own_items")
      && checkOwnership foundBy (user_id u)).

(** The documents the non-admin branch of [auth] finds missing for an
    account whose stored references are [ids] (its [missingPermissions]). *)
Definition missingPermissions (db : Store) (ids : list ObjectId)
    : list (ObjectId * PermissionDoc) :=
  List.filter (fun permission =>
                 negb (includes (perm_name <$> populate db ids)
                                (name permission.2)))
              (Permission_find_name_in requiredPermissionNames db).

(** The same identity under another role, to compare guards across roles. *)
Definition with_role (r : string) (u : ReqUser) : ReqUser :=
  mkReqUser (user_id u) (employeeNumber u) (firstName u) (lastName u) r
            (permissions u).

Definition set_user (u : option ReqUser) (req : Request) : Request :=
  mkRequest (header_Authorization req) (params_id req) u (token req).

(** The identity a middleware chain hands to what follows it. *)
Definition identity_of (o : Outcome * Store) : option ReqUser :=
  match o.1 with
  | Next req => user req
  | Respond _ => None
  end.

(** The names of the grants stored for an account. *)
Definition granted_names (db : Store) (id : ObjectId) : option (list string) :=
  (fun u => perm_name <$> populate db (doc_permissions u)) <$> User db !! id.

Definition same_names (a b : list string) : bool :=
  forallb (includes b) a && forallb (includes a) b.

(** ** A concrete deployment, for evaluating the code

    The catalog is the one the seeding script ([initializePermissions])
    writes, 13 permissions; the role baselines are [ROLE_PERMISSIONS] of
    [routes/user.routes.ts]. *)
Module Sample.

Definition PERMISSIONS : list string :=
  ["view_dashboard"; "view_all_items"; "view_own_items"; "create_items";
   "edit_all_items"; "edit_own_items"; "delete_all_items"; "delete_own_items";
   "manage_users"; "generate_reports"; "deliver_items"; "view_delivered_items";
   "revert_delivered_status"].

Definition ROLE_PERMISSIONS (r : string) : list string :=
  if String.eqb r "admin" then
    ["view_dashboard"; "view_all_items"; "view_own_items"; "create_items";
     "edit_all_items"; "edit_own_items"; "delete_all_items";
     "delete_own_items"; "manage_users"; "generate_reports"; "deliver_items";
     "view_delivered_items"]
  else if String.eqb r "supervisor" then
    ["view_dashboard"; "view_all_items"; "view_own_items"; "create_items";
     "edit_all_items"; "edit_own_items"; "delete_all_items";
     "delete_own_items"; "deliver_items"; "view_delivered_items"]
  else if String.eqb r "employee" then
    ["view_dashboard"; "view_own_items"; "create_items"; "edit_own_items";
     "delete_own_items"; "deliver_items"; "view_delivered_items"]
  else [].

Definition hex2 (n : nat) : string :=
  let d k := match k with
             | 0 => "0" | 1 => "1" | 2 => "2" | 3 => "3" | 4 => "4"
             | 5 => "5" | 6 => "6" | 7 => "7" | 8 => "8" | 9 => "9"
             | 10 => "a" | 11 => "b" | 12 => "c" | 13 => "d" | 14 => "e"
             | _ => "f"
             end in
  d (n / 16) ++ d (n mod 16).

Definition permission_id (n : nat) : ObjectId := "0000000000000000000000" ++ hex2 n.
Definition account_id (n : nat) : ObjectId := "1111111111111111111111" ++ hex2 n.
Definition item_id (n : nat) : ObjectId := "2222222222222222222222" ++ hex2 n.

Definition catalog : gmap ObjectId PermissionDoc :=
  list_to_map
    (imap (fun i n => (permission_id (S i), mkPermissionDoc n "" "" "")) PERMISSIONS).

(** The ids of the catalog entries with the given names. *)
Definition ids_of (names : list string) : list ObjectId :=
  fst <$> List.filter (fun e => includes names (name e.2)) (map_to_list catalog).

Definition employee : UserDoc :=
  mkUserDoc "AC000007" "Erin" "Employee" "employee"
            (ids_of (ROLE_PERMISSIONS "employee")).

Definition legacy : UserDoc :=
  mkUserDoc "AC000008" "Lee" "Legacy" "employee" [].

Definition admin : UserDoc :=
  mkUserDoc "AC000001" "Admin" "User" "admin" [].

Definition db : Store :=
  mkStore
    (list_to_map [(account_id 1, admin); (account_id 7, employee);
                  (account_id 8, legacy)])
    catalog
    (list_to_map [(item_id 1, mkDeliveredItemDoc "AC101" "umbrella"
                                (account_id 8) false)])
    (list_to_map [(item_id 2, mkLostItemDoc "AC202" "scarf"
                                (account_id 8) "onHand")]).

Definition env : Env := mkEnv (Some "s3cret") 1000.

Definition token_for (id : ObjectId) (empno r : string) (exp : Z) : Jwt :=
  mkJwt "HS256" "s3cret" None (Some exp) (mkJwtPayload id empno r None).

(** Compact token strings and what they decode to. *)
Definition jwt_decode (s : string) : option Jwt :=
  if String.eqb s "admin.jwt" then
    Some (token_for (account_id 1) "AC000001" "admin" 2000)
  else if String.eqb s "employee.jwt" then
    Some (token_for (account_id 7) "AC000007" "employee" 2000)
  else if String.eqb s "legacy.jwt" then
    Some (token_for (account_id 8) "AC000008" "employee" 2000)
  else if String.eqb s "expired.jwt" then
    Some (token_for (account_id 7) "AC000007" "employee" 999)
  else if String.eqb s "renumbered.jwt" then
    Some (token_for (account_id 7) "AC999999" "employee" 2000)
  else None.

Definition request (tok id : string) : Request :=
  mkRequest (Some ("Bearer " ++ tok)) id None None.

Definition auth := auth jwt_decode env.

End Sample.


(** ** middleware/adminOnly.ts *)

Definition adminOnly : Middleware := fun db req =>
  match user req with
  | None => (Respond (json 403 "Access denied. Admin only." None), db)
  | Some u =>
    if negb (String.eqb (role u) "admin")
    then (Respond (json 403 "Access denied. Admin only." None), db)
    else (Next req, db)
  end.

(** An account document with its grant set blanked, to compare everything
    else. *)
Definition without_permissions (u : UserDoc) : UserDoc := set_permissions [] u.

(** The names stored permissions carry. *)
Definition catalog_names (db : Store) : list string :=
  (fun e => name e.2) <$> map_to_list (Permission db).

(** ** More of routes/delivered-items.routes.ts *)

(** [s.toLowerCase()]: the letters A-Z are lowered, every other byte is
    left alone. *)
Definition ascii_toLowerCase (c : ascii) : ascii :=
  let n := nat_of_ascii c in
  if Nat.leb 65 n && Nat.leb n 90 then ascii_of_nat (n + 32) else c.

Definition toLowerCase (s : string) : string := string_map ascii_toLowerCase s.

(** [s.includes(sub)]: [sub] occurs somewhere in [s]. *)
Fixpoint str_includes (sub s : string) : bool :=
  String.prefix sub s
  || match s with
     | EmptyString => false
     | String _ s' => str_includes sub s'
     end.

Definition normalizeStatus (status : string) : string :=
  let statusLower := toLowerCase status in
  if str_includes "onhand" statusLower || str_includes "on hand" statusLower
  then "onHand"
  else if str_includes "deliver" statusLower then "delivered"
  else if str_includes "process" statusLower then "inProcess"
  else "onHand".

(** A route that answers with documents: the error response, or the body
    of [res.json(items)]. *)
Definition run_read {A} (mws : list Middleware)
    (handler : Store -> Request -> Response + A) (db : Store) (req : Request)
    : (Response + A) * Store :=
  match run mws db req with
  | (Next req', db') => (handler db' req', db')
  | (Respond res, db') => (inl res, db')
  end.

Section Reading.
Variable jwt_decode : string -> option Jwt.
Variable env : Env.

(** [.sort({ dateFound: -1 })]: the date is not among the fields kept, so
    the ordering is taken as given. *)
Variable sort_dateFound :
  list (ObjectId * LostItemDoc) -> list (ObjectId * LostItemDoc).

(** [router.get('/')] of the items router that filters by permission *)
Definition items_list_handler (db : Store) (req : Request)
    : Response + list (ObjectId * LostItemDoc) :=
  match user req with
  | None => inl (json 500 "Error fetching items" None)
  | Some u =>
    let permissions := permissions u in
    let query (item : LostItemDoc) :=
      if negb (some_matches permissions "view_all_items")
      then String.eqb (li_foundBy item) (user_id u)
      else true in
    let items :=
      sort_dateFound
        (List.filter (fun e => query e.2
                               && negb (String.eqb (li_status e.2) "delivered"))
                     (map_to_list (LostItem db))) in
    let deliveredItems :=
      if some_matches permissions "view_delivered_items"
      then sort_dateFound
             (List.filter (fun e => query e.2
                                    && String.eqb (li_status e.2) "delivered")
                          (map_to_list (LostItem db)))
      else [] in
    inr (items ++ deliveredItems)%list
  end.

Definition items_list := run_read [auth jwt_decode env] items_list_handler.

End Reading.

(** ** More of routes/permission.routes.ts *)

(** [Permission.findOne({ name })]: whether some stored permission carries
    the name. *)
Definition Permission_name_exists (n : string) (db : Store) : bool :=
  existsb (fun e => String.eqb (name e.2) n) (map_to_list (Permission db)).

Section PermissionRoutes.
Variable jwt_decode : string -> option Jwt.
Variable env : Env.

(** What [permission.save()] validates is written in models/Permission,
    which is not among the sources: the schema's verdict on a document is
    taken as given. *)
Variable Permission_schema_ok : PermissionDoc -> bool.

(** [router.post('/')]: [body] is the four fields read from the request,
    [newId] the [_id] the new document is given. *)
Definition permission_create_handler (body : PermissionDoc) (newId : ObjectId)
    : Handler := fun db req =>
  match user req with
  | None => (json 500 "Error creating permission" None, db)
  | Some requester =>
    match User db !! user_id requester with
    | None => (json 403 "Only admins can create permissions" None, db)
    | Some u =>
      if negb (String.eqb (doc_role u) "admin")
      then (json 403 "Only admins can create permissions" None, db)
      else if Permission_name_exists (name body) db
      then (json 400 "Permission already exists" None, db)
      else if negb (Permission_schema_ok body)
      then (json 500 "Error creating permission" None, db)
      else match Permission db !! newId with
           | Some _ => (json 500 "Error creating permission" None, db)
           | None =>
             (json 201 "" None, set_Permission (insert newId body) db)
           end
    end
  end.

Definition permission_create body newId : Handler :=
  route [auth jwt_decode env] (permission_create_handler body newId).

End PermissionRoutes.

(** ** routes/user.routes.ts *)

(** [type UserRole = 'admin' | 'supervisor' | 'employee'] *)
Inductive UserRole := Admin | Supervisor | Employee.

Definition role_name (r : UserRole) : string :=
  match r with
  | Admin => "admin"
  | Supervisor => "supervisor"
  | Employee => "employee"
  end.

(** [ROLE_PERMISSIONS[role as UserRole]], the table being the one written
    out in [Sample.ROLE_PERMISSIONS]. *)
Definition ROLE_PERMISSIONS_of (r : UserRole) : list string :=
  Sample.ROLE_PERMISSIONS (role_name r).

Definition ADMIN_PERMISSIONS : list string := ROLE_PERMISSIONS_of Admin.

(** [User.findOne({ employeeNumber })]: whether some account carries the
    number. *)
Definition User_number_exists (n : string) (db : Store) : bool :=
  existsb (fun e => String.eqb (doc_employeeNumber e.2) n)
          (map_to_list (User db)).

(** [[...new Set(ids)]]: each id once, in the order of first appearance. *)
Fixpoint Set_spread (seen ids : list string) : list string :=
  match ids with
  | [] => []
  | x :: rest =>
    if includes seen x then Set_spread seen rest
    else x :: Set_spread (x :: seen) rest
  end.

Section UserRoutes.
Variable jwt_decode : string -> option Jwt.
Variable env : Env.

(** What [user.save()] validates is written in models/User, which is not
    among the sources: the schema's verdict on a document is taken as
    given.  The validator arrays of the routes record errors that no handler
    reads, so they decide nothing. *)
Variable User_schema_ok : UserDoc -> bool.

(** [router.post('/')]: the body fields, with [role] one of the three roles,
    and [newId] the [_id] the new document is given. *)
Definition user_create_handler
    (employeeNumber firstName lastName : string) (role : UserRole)
    (newId : ObjectId) : Handler := fun db req =>
  if User_number_exists employeeNumber db
  then (json 400 "Employee number already exists" None, db)
  else
    let defaultPermissionNames := ROLE_PERMISSIONS_of role in
    let permissions := Permission_find_name_in defaultPermissionNames db in
    let user := mkUserDoc employeeNumber firstName lastName (role_name role)
                          (fst <$> permissions) in
    if negb (User_schema_ok user)
    then (json 500 "Error creating user" None, db)
    else match User db !! newId with
         | Some _ => (json 500 "Error creating user" None, db)
         | None => (json 201 "" None, set_User (insert newId user) db)
         end.

Definition user_create employeeNumber firstName lastName role newId : Handler :=
  route [auth jwt_decode env; hasPermission "manage_users"]
        (user_create_handler employeeNumber firstName lastName role newId).

(** [router.put('/:id')] *)
Definition user_update_handler (firstName lastName : string) (role : UserRole)
    : Handler := fun db req =>
  match new_ObjectId (params_id req) with
  | None => (json 500 "Error updating user" None, db)
  | Some id =>
    match User db !! id with
    | None => (json 404 "User not found" None, db)
    | Some user =>
      let user' :=
        if negb (String.eqb (role_name role) (doc_role user))
        then
          let defaultPermissions :=
            Permission_find_name_in (ROLE_PERMISSIONS_of role) db in
          mkUserDoc (doc_employeeNumber user) firstName lastName
                    (role_name role) (fst <$> defaultPermissions)
        else
          mkUserDoc (doc_employeeNumber user) firstName lastName
                    (doc_role user) (doc_permissions user) in
      if negb (User_schema_ok user')
      then (json 500 "Error updating user" None, db)
      else (json 200 "" None, set_User (insert id user') db)
    end
  end.

Definition user_update firstName lastName role : Handler :=
  route [auth jwt_decode env; hasPermission "manage_users"]
        (user_update_handler firstName lastName role).

(** [router.put('/:userId/permissions')], for a body whose [permissions] is
    an array of strings. *)
Definition user_permissions_handler (permissions : list string) : Handler :=
  fun db req =>
  match new_ObjectId (params_id req) with
  | None => (json 500 "Error updating user permissions" None, db)
  | Some userId =>
    match User db !! userId with
    | None => (json 404 "User not found" None, db)
    | Some user =>
      let ids :=
        if String.eqb (doc_role user) "admin" then
          let permissionIds :=
            fst <$> Permission_find_name_in permissions db in
          let adminPermissionIds :=
            fst <$> Permission_find_name_in ADMIN_PERMISSIONS db in
          Set_spread [] (permissionIds ++ adminPermissionIds)%list
        else fst <$> Permission_find_name_in permissions db in
      let user' := set_permissions ids user in
      if negb (User_schema_ok user')
      then (json 500 "Error updating user permissions" None, db)
      else (json 200 "Permissions updated successfully" None,
            set_User (insert userId user') db)
    end
  end.

Definition user_permissions permissions : Handler :=
  route [auth jwt_decode env; hasPermission "manage_users"]
        (user_permissions_handler permissions).

(** [router.put('/users/:userId/permissions')] of the router that also holds
    register and login, for a body whose [permissions] is an array of
    strings. *)
Definition users_permissions_handler (permissions : list string) : Handler :=
  fun db req =>
  match user req with
  | None => (json 500 "Error updating permissions" None, db)
  | Some requester =>
    match User db !! user_id requester with
    | None => (json 403 "Access denied. Admin only." None, db)
    | Some requestingUser =>
      if negb (String.eqb (doc_role requestingUser) "admin")
      then (json 403 "Access denied. Admin only." None, db)
      else
        let validPermissions := Permission_find_name_in permissions db in
        if negb (Nat.eqb (length validPermissions) (length permissions))
        then (json 400 "Invalid permissions provided" None, db)
        else
          match new_ObjectId (params_id req) with
          | None => (json 500 "Error updating permissions" None, db)
          | Some userId =>
            match (User_findByIdAndUpdate userId
                     (update_set_permissions (fst <$> validPermissions)) db) with
            | (None, db') => (json 404 "User not found" None, db')
            | (Some _, db') => (json 200 "" None, db')
            end
          end
    end
  end.

Definition users_permissions permissions : Handler :=
  route [auth jwt_decode env] (users_permissions_handler permissions).

End UserRoutes.

(** The employee numbers of the stored accounts. *)
Definition account_numbers (db : Store) : list string :=
  (fun e => doc_employeeNumber e.2) <$> map_to_list (User db).

(** ** Issuing tokens: register and login *)

(** [jwt.sign(payload, secret, { expiresIn: '24h' })], with or without
    [algorithm: 'HS256'], which is the default: issued at [now], expiring
    86400 seconds later. *)
Definition jwt_sign (now : Z) (payload : JwtPayload) (secret : string) : Jwt :=
  mkJwt "HS256" secret None (Some (now + 86400)%Z) payload.

(** [User.findOne({ employeeNumber })] *)
Definition User_findOne_by_number (n : string) (db : Store)
    : option (ObjectId * UserDoc) :=
  List.find (fun e => String.eqb (doc_employeeNumber e.2) n)
            (map_to_list (User db)).

Section Issuing.
(** The compact serialisation of a signed token. *)
Variable jwt_encode : Jwt -> string.
(** [user.comparePassword(password)]: the stored secret is not among the
    fields kept and models/User is not among the sources, so the verdict
    is taken as given for each account. *)
Variable comparePassword : ObjectId -> string -> bool.
Variable User_schema_ok : UserDoc -> bool.
Variable env : Env.

(** [router.post('/register')]: the answer and, on success, the token.  The
    permission snapshot of the payload is kept by name. *)
Definition register_handler
    (employeeNumber firstName lastName : string) (newId : ObjectId)
    (db : Store) : (Response * option string) * Store :=
  if User_number_exists employeeNumber db
  then ((json 400 "Employee number already exists" None, None), db)
  else
    let defaultPermissions :=
      Permission_find_name_in
        ["view_dashboard"; "view_own_items"; "create_items"; "edit_own_items";
         "delete_own_items"; "deliver_items"; "view_delivered_items"] db in
    let user := mkUserDoc employeeNumber firstName lastName "employee"
                          (fst <$> defaultPermissions) in
    if negb (User_schema_ok user)
    then ((json 500 "Error creating user" None, None), db)
    else match User db !! newId with
         | Some _ => ((json 500 "Error creating user" None, None), db)
         | None =>
           let db' := set_User (insert newId user) db in
           let tokenPayload :=
             mkJwtPayload newId employeeNumber "employee"
               (Some (perm_name <$> populate db' (doc_permissions user))) in
           let token :=
             jwt_encode (jwt_sign (clockTimestamp env) tokenPayload
                                  (secretOrKey env)) in
           ((json 201 "" None, Some token), db')
         end.

(** [router.post('/login')] *)
Definition login_handler (employeeNumber password : string) (db : Store)
    : (Response * option string) * Store :=
  match User_findOne_by_number employeeNumber db with
  | None => ((json 401 "Invalid credentials" None, None), db)
  | Some (id, user) =>
    if negb (comparePassword id password)
    then ((json 401 "Invalid credentials" None, None), db)
    else
      let '(permissions, db') :=
        if String.eqb (doc_role user) "admin" then
          let allPermissions := Permission_find_all db in
          match User_findByIdAndUpdate id
                  (update_set_permissions (fst <$> allPermissions)) db with
          | (Some updatedUser, db') => (ud_permissions updatedUser, db')
          | (None, db') => (populate db (doc_permissions user), db')
          end
        else (populate db (doc_permissions user), db) in
      let tokenPayload :=
        mkJwtPayload id (doc_employeeNumber user) (doc_role user)
                     (Some (perm_name <$> permissions)) in
      let token :=
        jwt_encode (jwt_sign (clockTimestamp env) tokenPayload
                             (secretOrKey env)) in
      ((json 200 "" None, Some token), db')
  end.

End Issuing.

(** ** More of the concrete deployment *)
Module SampleMore.

(** A second token for the sample employee, claiming the role admin. *)
Definition jwt_decode (s : string) : option Jwt :=
  if String.eqb s "promoted.jwt"
  then Some (Sample.token_for (Sample.account_id 7) "AC000007" "admin" 2000)
  else Sample.jwt_decode s.

(** A request as it stands once a middleware has set [req.user]. *)
Definition as_user (u : ReqUser) (id : string) : Request :=
  mkRequest None id (Some u) None.

Definition supervisor : ReqUser :=
  mkReqUser (Sample.account_id 9) "AC000009" "Sam" "Supervisor" "supervisor"
            (PString <$> Sample.ROLE_PERMISSIONS "supervisor").


(** The sample admin as [auth] would hand it on. *)
Definition admin_identity : ReqUser :=
  mkReqUser (Sample.account_id 1) "AC000001" "Admin" "User" "admin"
            (PString <$> Sample.PERMISSIONS).

Definition schema_ok {A} (doc : A) : bool := true.


Definition comparePassword (id : ObjectId) (password : string) : bool :=
  String.eqb password "correct horse".

(** What login signs for the sample employee at the sample clock. *)
Definition session : Jwt :=
  jwt_sign (clockTimestamp Sample.env)
    (mkJwtPayload (Sample.account_id 7) "AC000007" "employee"
       (Some (perm_name <$>
                populate Sample.db (doc_permissions Sample.employee))))
    (secretOrKey Sample.env).

#[global] Instance JwtPayload_eq_dec : EqDecision JwtPayload.
Proof. solve_decision. Defined.

#[global] Instance Jwt_eq_dec : EqDecision Jwt.
Proof. solve_decision. Defined.

(** A serialisation that tells the session token from every other one. *)
Definition jwt_encode (t : Jwt) : string :=
  if bool_decide (t = session) then "session.jwt" else "other.jwt".

Definition jwt_decode_session (s : string) : option Jwt :=
  if String.eqb s "session.jwt" then Some session else None.

Definition new_permission : PermissionDoc :=
  mkPermissionDoc "archive_items" "Archive items" "items" "archive".

End SampleMore.

(** ** Seeding the catalog ([initializePermissions]) *)

Definition PERMISSIONS : list PermissionDoc :=
  [ mkPermissionDoc "view_dashboard" "View the dashboard" "dashboard" "view";
    mkPermissionDoc "view_all_items" "View all lost and found items" "items"
                    "view_all";
    mkPermissionDoc "view_own_items" "View items you created" "items" "view_own";
    mkPermissionDoc "create_items" "Create new lost and found items" "items"
                    "create";
    mkPermissionDoc "edit_all_items" "Edit any lost and found item" "items"
                    "edit_all";
    mkPermissionDoc "edit_own_items" "Edit items you created" "items" "edit_own";
    mkPermissionDoc "delete_all_items" "Delete any lost and found item" "items"
                    "delete_all";
    mkPermissionDoc "delete_own_items" "Delete items you created" "items"
                    "delete_own";
    mkPermissionDoc "manage_users" "Manage system users" "users" "manage";
    mkPermissionDoc "generate_reports" "Generate system reports" "reports"
                    "generate";
    mkPermissionDoc "deliver_items" "Mark items as delivered" "items" "deliver";
    mkPermissionDoc "view_delivered_items" "View delivered items" "items"
                    "view_delivered";
    mkPermissionDoc "revert_delivered_status" "Revert delivered status of items"
                    "items" "revert_delivered" ].

(** [Permission.findOne({ name })] *)
Definition Permission_findOne_name (n : string) (db : Store)
    : option (ObjectId * PermissionDoc) :=
  List.find (fun e => String.eqb (name e.2) n) (map_to_list (Permission db)).

Definition set_description (d : string) (p : PermissionDoc) : PermissionDoc :=
  mkPermissionDoc (name p) d (component p) (action p).

Section Seeding.
(** The [_id] [Permission.create] gives a new document, from the collection
    it is added to. *)
Variable newObjectId : gmap ObjectId PermissionDoc -> ObjectId.
Variable Permission_schema_ok : PermissionDoc -> bool.

(** The first loop over a list of permissions to have: the store reached and
    whether the loop got to its end ([false]: a create threw, and the script
    exits with 1 where it stands). *)
Fixpoint create_or_describe (todo : list PermissionDoc) (db : Store)
    : Store * bool :=
  match todo with
  | [] => (db, true)
  | permission :: rest =>
    match Permission_findOne_name (name permission) db with
    | None =>
      if negb (Permission_schema_ok permission) then (db, false)
      else
        let id := newObjectId (Permission db) in
        match Permission db !! id with
        | Some _ => (db, false)
        | None =>
          create_or_describe rest (set_Permission (insert id permission) db)
        end
    | Some (id, existingPermission) =>
      if negb (String.eqb (description existingPermission)
                          (description permission))
      then create_or_describe rest
             (set_Permission
                (insert id (set_description (description permission)
                                            existingPermission)) db)
      else create_or_describe rest db
    end
  end.

(** The second loop, over the permissions found when it starts. *)
Definition remove_deprecated (wanted : list PermissionDoc) (db : Store) : Store :=
  foldl (fun db existingPermission =>
           if negb (existsb (fun p => String.eqb (name p)
                                                 (name existingPermission.2))
                            wanted)
           then set_Permission (delete existingPermission.1) db
           else db)
        db (map_to_list (Permission db)).

Definition initializePermissions (db : Store) : Store * bool :=
  match create_or_describe PERMISSIONS db with
  | (db1, true) => (remove_deprecated PERMISSIONS db1, true)
  | (db1, false) => (db1, false)
  end.

End Seeding.

(** Whether a permission's name is one of the names to have. *)
Definition wanted_name (wanted : list PermissionDoc) (d : PermissionDoc) : bool :=
  existsb (fun p => String.eqb (name p) (name d)) wanted.

(** A store seeded long ago: one permission still wanted, under an old
    description, and one that is wanted no more, granted to an employee. *)
Module SampleSeed.

Definition newObjectId (m : gmap ObjectId PermissionDoc) : ObjectId :=
  Sample.permission_id (100 + size m).

Definition db : Store :=
  mkStore
    (list_to_map
       [(Sample.account_id 7,
         mkUserDoc "AC000007" "Erin" "Employee" "employee"
                   [Sample.permission_id 1; Sample.permission_id 2])])
    (list_to_map
       [(Sample.permission_id 1,
         mkPermissionDoc "view_dashboard" "Dashboard" "dashboard" "view");
        (Sample.permission_id 2,
         mkPermissionDoc "upload_files" "Upload files" "files" "upload")])
    ∅ ∅.

Definition seeded : Store :=
  (initializePermissions newObjectId SampleMore.schema_ok db).1.

End SampleSeed.

(** * Properties *)

Local Open Scope list_scope.


(** ** The library models on small inputs *)

Example replace_bearer : replace "Bearer " "" "Bearer abc.def" = "abc.def".
Proof. reflexivity. Qed.

Example replace_first_only :
  replace "Bearer " "" "Bearer Bearer x" = "Bearer x".
Proof. reflexivity. Qed.

Example new_ObjectId_lowers :
  new_ObjectId "64B7F0C2A1D3E4F5A6B7C8D9" = Some "64b7f0c2a1d3e4f5a6b7c8d9".
Proof. reflexivity. Qed.

Example new_ObjectId_throws : new_ObjectId "not-an-id" = None.
Proof. reflexivity. Qed.

Example jwt_verify_wrong_algorithm :
  jwt_verify (fun _ => Some (mkJwt "none" "k" None None
                               (mkJwtPayload "" "" "" None)))
             0 "t" "k" ["HS256"]
  = inl (JsonWebTokenError "invalid algorithm").
Proof. reflexivity. Qed.

(** ** Lists of names *)

Lemma includes_In (arr : list string) (x : string) :
  includes arr x = true <-> In x arr.
Proof.
  unfold includes. rewrite existsb_exists. split.
  - intros (y & Hy & Heq). apply String.eqb_eq in Heq. by subst.
  - intros Hx. exists x. split; [done|apply String.eqb_refl].
Qed.

Lemma includes_app (a b : list string) (x : string) :
  includes (a ++ b) x = includes a x || includes b x.
Proof. unfold includes. apply existsb_app. Qed.

Lemma filter_none {A} (f : A -> bool) (l : list A) :
  (forall x, In x l -> f x = false) -> List.filter f l = [].
Proof.
  induction l as [|a l IH]; intros Hall; [reflexivity|].
  cbn. rewrite (Hall a) by (by left). apply IH. intros x Hx. apply Hall. by right.
Qed.

(** ** Populating references *)

Lemma populate_app (db : Store) (a b : list ObjectId) :
  populate db (a ++ b) = populate db a ++ populate db b.
Proof. unfold populate. apply omap_app. Qed.

Lemma populate_found (db : Store) (docs : list (ObjectId * PermissionDoc)) :
  (forall e, In e docs -> Permission db !! e.1 = Some e.2) ->
  populate db (fst <$> docs) = hydrate <$> docs.
Proof.
  induction docs as [|[id doc] docs IH]; intros Hall; [reflexivity|].
  pose proof (Hall (id, doc) (or_introl eq_refl)) as Hd. cbn in Hd.
  cbn. unfold populate_ref at 1. rewrite Hd.
  f_equal. apply IH. intros e He. apply Hall. by right.
Qed.

Lemma Permission_find_name_in_stored (names : list string) (db : Store) e :
  In e (Permission_find_name_in names db) -> Permission db !! e.1 = Some e.2.
Proof.
  unfold Permission_find_name_in. rewrite filter_In. intros [He _].
  apply list_elem_of_In in He. destruct e as [id doc].
  by apply elem_of_map_to_list in He.
Qed.

Lemma missingPermissions_stored (db : Store) (ids : list ObjectId) e :
  In e (missingPermissions db ids) -> Permission db !! e.1 = Some e.2.
Proof.
  unfold missingPermissions. rewrite filter_In. intros [He _].
  by apply Permission_find_name_in_stored in He.
Qed.

(** Once the missing documents are appended, nothing is missing. *)
Lemma missingPermissions_after_push (db : Store) (ids : list ObjectId) :
  missingPermissions db (ids ++ (fst <$> missingPermissions db ids)) = [].
Proof.
  set (missing := missingPermissions db ids).
  unfold missingPermissions at 1.
  apply filter_none. intros e He.
  apply negb_false_iff.
  rewrite populate_app, fmap_app, includes_app.
  destruct (includes (perm_name <$> populate db ids) (name e.2)) eqn:Hold;
    [reflexivity|cbn].
  assert (Hin : In e missing).
  { unfold missing, missingPermissions. apply filter_In. by rewrite Hold. }
  rewrite populate_found by (intros; by eapply missingPermissions_stored).
  apply includes_In, list_elem_of_In.
  apply list_elem_of_fmap. exists (hydrate e). split; [reflexivity|].
  apply list_elem_of_fmap. exists e. split; [reflexivity|by apply list_elem_of_In].
Qed.

(** ** What [auth] does once the token verifies and the account is found *)

Section Authenticated.
Variable jwt_decode : string -> option Jwt.
Variable env : Env.
Variables (db : Store) (req : Request) (tok : string) (decoded : JwtPayload).
Variables (oid : ObjectId) (d : UserDoc).

Hypothesis Hheader : replace "Bearer " "" <$> header_Authorization req = Some tok.
Hypothesis Htok : tok <> "".
Hypothesis Hverify :
  jwt_verify jwt_decode (clockTimestamp env) tok (secretOrKey env) ["HS256"]
  = inr decoded.
Hypothesis Hoid : new_ObjectId (jp_id decoded) = Some oid.
Hypothesis Hfound : User db !! oid = Some d.

(** C10: the account is looked up by the token's id and employee number
    together.  When the token verifies and an account with its id exists
    whose stored employee number is not the token's, the request is
    answered 401 USER_NOT_FOUND and nothing is written. *)
Theorem auth_renumbered_account_not_found :
  doc_employeeNumber d <> jp_employeeNumber decoded ->
  auth jwt_decode env db req
  = (Respond (json 401 "User not found" (Some "USER_NOT_FOUND")), db).
Proof.
  intros Hne. unfold auth. rewrite Hheader.
  destruct tok as [|c tok']; [done|].
  rewrite Hverify, Hoid. unfold User_findOne. rewrite Hfound.
  destruct (String.eqb_spec (doc_employeeNumber d) (jp_employeeNumber decoded));
    [contradiction|reflexivity].
Qed.

Hypothesis Hnumber : doc_employeeNumber d = jp_employeeNumber decoded.

Lemma auth_admin :
  doc_role d = "admin" ->
  let d' := set_permissions (fst <$> Permission_find_all db) d in
  let db' := set_User (insert oid d') db in
  auth jwt_decode env db req
  = (Next (with_user req (Some (toObject (populated db' oid d'))) tok), db').
Proof.
  intros Hrole. unfold auth. rewrite Hheader.
  destruct tok as [|c tok']; [done|].
  rewrite Hverify, Hoid. unfold User_findOne. rewrite Hfound, Hnumber.
  rewrite String.eqb_refl. cbn [ud_doc ud_id populated]. rewrite Hrole.
  cbn [String.eqb]. rewrite ?Ascii.eqb_refl.
  unfold User_findByIdAndUpdate. rewrite Hfound. reflexivity.
Qed.

Lemma auth_non_admin :
  doc_role d <> "admin" ->
  let missing := missingPermissions db (doc_permissions d) in
  auth jwt_decode env db req
  = (Next (with_user req (Some (toObject (populated db oid d))) tok),
     if Nat.ltb 0 (length missing)
     then set_User (insert oid (update_push_permissions missing d)) db
     else db).
Proof.
  intros Hrole. unfold auth. rewrite Hheader.
  destruct tok as [|c tok']; [done|].
  rewrite Hverify, Hoid. unfold User_findOne. rewrite Hfound, Hnumber.
  rewrite String.eqb_refl. cbn [ud_doc ud_id populated ud_permissions].
  destruct (String.eqb_spec (doc_role d) "admin"); [contradiction|].
  unfold User_findByIdAndUpdate. rewrite Hfound. reflexivity.
Qed.

(** C2: after an authenticated request of an admin account, the stored grant
    set of that account is the whole Permission collection as it is at that
    request: the same references, each once, whatever the collection holds;
    the collection itself is not touched. *)
Theorem admin_grant_set_is_catalog :
  doc_role d = "admin" ->
  let db' := (auth jwt_decode env db req).2 in
  Permission db' = Permission db /\
  exists d',
    User db' !! oid = Some d' /\
    doc_permissions d' = fst <$> Permission_find_all db' /\
    NoDup (doc_permissions d') /\
    forall id, id ∈ doc_permissions d' <-> is_Some (Permission db' !! id).
Proof.
  intros Hrole. rewrite (auth_admin Hrole). cbn.
  split; [reflexivity|].
  eexists. split; [apply lookup_insert_eq|]. cbn.
  split; [reflexivity|]. split.
  - apply NoDup_fst_map_to_list.
  - intros id. unfold Permission_find_all.
    rewrite <- elem_of_dom, list_elem_of_fmap. split.
    + intros ([i x] & -> & Hix). apply elem_of_map_to_list in Hix.
      apply elem_of_dom. by exists x.
    + intros [x Hx]%elem_of_dom. exists (id, x). split; [reflexivity|].
      by apply elem_of_map_to_list.
Qed.

End Authenticated.


(** ** Every way through [auth] *)

(** Either the request is answered 401 and nothing is written, or the token
    verified and named an account of the store by id and employee number. *)
Lemma auth_cases jwt_decode env db req :
  (exists res, auth jwt_decode env db req = (Respond res, db) /\ status res = 401)
  \/ exists tok decoded oid d,
       replace "Bearer " "" <$> header_Authorization req = Some tok
       /\ tok <> ""
       /\ jwt_verify jwt_decode (clockTimestamp env) tok (secretOrKey env)
            ["HS256"] = inr decoded
       /\ new_ObjectId (jp_id decoded) = Some oid
       /\ User db !! oid = Some d
       /\ doc_employeeNumber d = jp_employeeNumber decoded.
Proof.
  unfold auth.
  destruct (replace "Bearer " "" <$> header_Authorization req)
    as [tok|] eqn:Hh; [|left; by eexists].
  destruct tok as [|c tok']; [left; by eexists|].
  destruct (jwt_verify _ _ _ _ _) as [err|decoded] eqn:Hv; [left; by eexists|].
  destruct (new_ObjectId _) as [oid|] eqn:Ho; [|left; by eexists].
  unfold User_findOne.
  destruct (User db !! oid) as [d|] eqn:Hf; [|left; by eexists].
  destruct (String.eqb_spec (doc_employeeNumber d) (jp_employeeNumber decoded))
    as [Hn|Hn]; [|left; by eexists].
  right. exists (String c tok'), decoded, oid, d. by repeat split.
Qed.

(** A request [auth] answers itself is answered 401. *)
Lemma auth_respond_status jwt_decode env db req res db' :
  auth jwt_decode env db req = (Respond res, db') -> status res = 401.
Proof.
  intros Hres.
  destruct (auth_cases jwt_decode env db req)
    as [(res' & H & Hst)|(tok & decoded & oid & d & Hh & Hne & Hv & Ho & Hf & Hn)].
  - rewrite H in Hres. by inversion Hres; subst.
  - destruct (decide (doc_role d = "admin")) as [Hr|Hr].
    + rewrite (auth_admin jwt_decode env db req tok decoded oid d
                 Hh Hne Hv Ho Hf Hn Hr) in Hres. discriminate.
    + rewrite (auth_non_admin jwt_decode env db req tok decoded oid d
                 Hh Hne Hv Ho Hf Hn Hr) in Hres. discriminate.
Qed.

(** C6: reconciling twice in a row changes nothing the second time: the
    store after a second run of [auth] on the same request is the store
    after the first, for every request and every store. *)
Theorem auth_reconciliation_idempotent jwt_decode env db req :
  (auth jwt_decode env (auth jwt_decode env db req).2 req).2
  = (auth jwt_decode env db req).2.
Proof.
  destruct (auth_cases jwt_decode env db req)
    as [(res & H & _)|(tok & decoded & oid & d & Hh & Hne & Hv & Ho & Hf & Hn)].
  - rewrite H. cbn. by rewrite H.
  - destruct (decide (doc_role d = "admin")) as [Hr|Hr].
    + rewrite (auth_admin jwt_decode env db req tok decoded oid d
                 Hh Hne Hv Ho Hf Hn Hr). cbn [snd].
      set (d' := set_permissions (fst <$> Permission_find_all db) d).
      set (db' := set_User (insert oid d') db).
      assert (Hf' : User db' !! oid = Some d') by apply lookup_insert_eq.
      rewrite (auth_admin jwt_decode env db' req tok decoded oid d'
                 Hh Hne Hv Ho Hf' Hn Hr). cbn [snd].
      unfold db', set_User. cbn. by rewrite insert_insert_eq.
    + rewrite (auth_non_admin jwt_decode env db req tok decoded oid d
                 Hh Hne Hv Ho Hf Hn Hr). cbn [snd].
      destruct (Nat.ltb 0 (length (missingPermissions db (doc_permissions d))))
        eqn:Hlen.
      * set (d' := update_push_permissions
                     (missingPermissions db (doc_permissions d)) d).
        set (db' := set_User (insert oid d') db).
        assert (Hf' : User db' !! oid = Some d') by apply lookup_insert_eq.
        rewrite (auth_non_admin jwt_decode env db' req tok decoded oid d'
                   Hh Hne Hv Ho Hf' Hn Hr).
        cbn [snd].
        change (missingPermissions db' (doc_permissions d'))
          with (missingPermissions db
                  (doc_permissions d
                   ++ (fst <$> missingPermissions db (doc_permissions d)))).
        by rewrite missingPermissions_after_push.
      * rewrite (auth_non_admin jwt_decode env db req tok decoded oid d
                   Hh Hne Hv Ho Hf Hn Hr). cbn [snd]. by rewrite Hlen.
Qed.

(** [auth] hands the request on with its parameters untouched. *)
Lemma auth_next_params jwt_decode env db req req' db' :
  auth jwt_decode env db req = (Next req', db') -> params_id req' = params_id req.
Proof.
  intros Hnext.
  destruct (auth_cases jwt_decode env db req)
    as [(res' & H & Hst)|(tok & decoded & oid & d & Hh & Hne & Hv & Ho & Hf & Hn)].
  - rewrite H in Hnext. discriminate.
  - destruct (decide (doc_role d = "admin")) as [Hr|Hr].
    + rewrite (auth_admin jwt_decode env db req tok decoded oid d
                 Hh Hne Hv Ho Hf Hn Hr) in Hnext. by inversion Hnext.
    + rewrite (auth_non_admin jwt_decode env db req tok decoded oid d
                 Hh Hne Hv Ho Hf Hn Hr) in Hnext. by inversion Hnext.
Qed.

(** ** Deleting a permission *)

Lemma pull_removes (id : ObjectId) (ids : list ObjectId) :
  ~ In id (List.filter (fun x => negb (String.eqb x id)) ids).
Proof.
  rewrite filter_In. intros [_ Hid]. by rewrite String.eqb_refl in Hid.
Qed.

Lemma pull_absent (id : ObjectId) (ids : list ObjectId) :
  id ∉ ids -> List.filter (fun x => negb (String.eqb x id)) ids = ids.
Proof.
  induction ids as [|x ids IH]; [reflexivity|].
  intros Hnot. apply not_elem_of_cons in Hnot as [Hne Hnot]. cbn.
  destruct (String.eqb_spec x id) as [->|_]; [done|]. cbn. by rewrite IH.
Qed.

(** [updateMany({ permissions: id }, { $pull: { permissions: id } })] on one
    account: whether the filter selects it or not, the account stays, and
    its grant set is the old one without the occurrences of [id]. *)
Lemma User_updateMany_pull_lookup (id : ObjectId) (db : Store) uid :
  User (User_updateMany_pull id db) !! uid
  = (fun u => set_permissions
                (List.filter (fun x => negb (String.eqb x id))
                             (doc_permissions u)) u)
    <$> User db !! uid.
Proof.
  unfold User_updateMany_pull, set_User. cbn. rewrite lookup_fmap.
  destruct (User db !! uid) as [u|]; [|reflexivity]. cbn. f_equal.
  case_bool_decide as Hin; [reflexivity|].
  rewrite (pull_absent id _ Hin). by destruct u.
Qed.

Lemma permission_delete_handler_pulls db req res db' :
  permission_delete_handler db req = (res, db') ->
  status res = 200 ->
  exists id,
    new_ObjectId (params_id req) = Some id
    /\ is_Some (Permission db !! id)
    /\ db' = User_updateMany_pull id (set_Permission (delete id) db).
Proof.
  unfold permission_delete_handler. intros Hrun Hok.
  destruct (user req) as [requester|]; [|by inversion Hrun; subst].
  destruct (User db !! user_id requester) as [u|]; [|by inversion Hrun; subst].
  destruct (negb _); [by inversion Hrun; subst|].
  destruct (new_ObjectId (params_id req)) as [id|]; [|by inversion Hrun; subst].
  destruct (Permission db !! id) as [permission|] eqn:Hp;
    [|by inversion Hrun; subst].
  inversion Hrun; subst. exists id. by repeat split.
Qed.

(** ** The single-permission guard *)

(** C9: [hasPermission(name)] decides on the permission array alone.  It hands
    the request on exactly when some entry matches [name] (a string entry by
    equality, a document entry by its name); otherwise the answer is 403
    PERMISSION_DENIED; and the same identity under any other role, admin
    included, gets the same decision. *)
Theorem hasPermission_ignores_role (permissionName : string) db req :
  (admits (hasPermission permissionName db req) = true <->
   exists u p, user req = Some u /\ In p (permissions u) /\
     match p with
     | PString s => s = permissionName
     | PObject o => perm_name o = permissionName
     end)
  /\ (admits (hasPermission permissionName db req) = false ->
      hasPermission permissionName db req
      = (Respond (mkResponse 403
                    "You do not have permission to access this page"
                    (Some "PERMISSION_DENIED")), db))
  /\ (forall u r, user req = Some u ->
      admits (hasPermission permissionName db
                (set_user (Some (with_role r u)) req))
      = admits (hasPermission permissionName db req)).
Proof.
  unfold hasPermission, admits. repeat split.
  - destruct (user req) as [u|]; [|discriminate].
    destruct (existsb _ _) eqn:Hex; [|discriminate]. intros _.
    apply existsb_exists in Hex as (p & Hp & Hm).
    exists u, p. repeat split; [done|].
    destruct p as [s|[[o|s] n]]; cbn in Hm; by apply String.eqb_eq in Hm.
  - intros (u & p & -> & Hp & Hm).
    assert (Hex : existsb (fun p => matchesPermission p permissionName)
                          (permissions u) = true).
    { apply existsb_exists. exists p. split; [done|].
      destruct p as [s|[[o|s] n]]; cbn in *; subst; apply String.eqb_refl. }
    by rewrite Hex.
  - destruct (user req) as [u|]; [|reflexivity].
    by destruct (existsb _ _).
  - intros u r ->. cbn. by destruct (existsb _ _).
Qed.

(** ** Rejected tokens *)

Lemma jwt_verify_expired jwt_decode now tok secret algorithms t exp :
  jwt_decode tok = Some t -> jwt_exp t = Some exp -> (exp <= now)%Z ->
  exists err, jwt_verify jwt_decode now tok secret algorithms = inl err.
Proof.
  intros Hd He Hle. unfold jwt_verify. rewrite Hd, He.
  apply Z.leb_le in Hle. rewrite Hle.
  destruct (negb _); [by eexists|]. destruct (negb _); [by eexists|].
  destruct (jwt_nbf t) as [nbf|]; [|by eexists].
  destruct (now <? nbf)%Z; by eexists.
Qed.

(** A token that is sound in every other respect fails on its expiry. *)
Lemma jwt_verify_TokenExpiredError jwt_decode now tok secret t exp :
  jwt_decode tok = Some t -> jwt_alg t = "HS256" -> jwt_key t = secret ->
  jwt_nbf t = None -> jwt_exp t = Some exp -> (exp <= now)%Z ->
  jwt_verify jwt_decode now tok secret ["HS256"] = inl TokenExpiredError.
Proof.
  intros Hd Ha Hk Hn He Hle. unfold jwt_verify. rewrite Hd, Ha, Hk, Hn, He.
  apply Z.leb_le in Hle. rewrite Hle. cbn. by rewrite String.eqb_refl.
Qed.

Lemma auth_malformed_token jwt_decode env db req tok :
  replace "Bearer " "" <$> header_Authorization req = Some tok ->
  tok <> "" -> jwt_decode tok = None ->
  auth jwt_decode env db req
  = (Respond (json 401 "Invalid token" (Some "INVALID_TOKEN")), db).
Proof.
  intros Hh Hne Hd. unfold auth. rewrite Hh.
  destruct tok as [|c tok']; [done|].
  unfold jwt_verify. by rewrite Hd.
Qed.

(** C8 (amended): a token whose expiry is not in the future is answered 401
    with code INVALID_TOKEN, the answer every other verification failure
    gets, and nothing is written. *)
Theorem auth_expired_token_invalid_token jwt_decode env db req tok t exp :
  replace "Bearer " "" <$> header_Authorization req = Some tok ->
  tok <> "" ->
  jwt_decode tok = Some t -> jwt_exp t = Some exp ->
  (exp <= clockTimestamp env)%Z ->
  auth jwt_decode env db req
  = (Respond (json 401 "Invalid token" (Some "INVALID_TOKEN")), db).
Proof.
  intros Hh Hne Hd He Hle. unfold auth. rewrite Hh.
  destruct tok as [|c tok']; [done|].
  destruct (jwt_verify_expired jwt_decode (clockTimestamp env) (String c tok')
              (secretOrKey env) ["HS256"] t exp Hd He Hle) as [err ->].
  reflexivity.
Qed.

(** ** The route-level guard on a pair of permissions *)

Lemma existsb_orb {A} (f g : A -> bool) (l : list A) :
  existsb (fun x => f x || g x) l = existsb f l || existsb g l.
Proof.
  induction l as [|a l IH]; [reflexivity|]. cbn. rewrite IH.
  destruct (f a), (g a), (existsb f l); reflexivity.
Qed.

Lemma some_matches_existsb (ps : list PermissionT) (n : string) :
  n <> "" -> some_matches ps n = existsb (fun p => matchesPermission p n) ps.
Proof.
  intros Hn. unfold some_matches. induction ps as [|p ps IH]; [reflexivity|].
  cbn [existsb]. rewrite IH. f_equal.
  destruct p as [[|c s]|o]; cbn; [|reflexivity..].
  by destruct n.
Qed.

Lemma hasAnyPermission_pair (all own : string) db req u :
  all <> "" -> own <> "" -> user req = Some u ->
  hasAnyPermission [all; own] db req
  = if String.eqb (role u) "admin"
       || some_matches (permissions u) all || some_matches (permissions u) own
    then (Next req, db) else (Respond PERMISSION_DENIED, db).
Proof.
  intros Hall Hown Hu. unfold hasAnyPermission. rewrite Hu.
  destruct (String.eqb (role u) "admin"); [reflexivity|].
  rewrite !some_matches_existsb by done. cbn [orb].
  rewrite <- existsb_orb.
  replace (existsb (fun p => existsb (fun name => matchesPermission p name)
                                     [all; own]) (permissions u))
    with (existsb (fun p => matchesPermission p all || matchesPermission p own)
                  (permissions u)).
  - by destruct (existsb _ _).
  - induction (permissions u) as [|p ps IH]; [reflexivity|].
    cbn. by rewrite IH, orb_false_r.
Qed.

(** DELETE /items/:id of [routes/items.routes.ts] stands behind [auth]
    alone: whoever is authenticated deletes any item. *)
Lemma items_delete_handler_unguarded db req id item :
  new_ObjectId (params_id req) = Some id ->
  LostItem db !! id = Some item ->
  items_delete_handler db req
  = (json 200 "Item deleted successfully" None, set_LostItem (delete id) db).
Proof. intros Hid Hitem. unfold items_delete_handler. by rewrite Hid, Hitem. Qed.

(** ** What the non-admin branch appends *)

(** The documents appended are the stored permissions whose name is on the
    fixed list of [auth] and is not yet a name of the account's populated
    grants; the account's role plays no part. *)
Lemma missingPermissions_iff db ids id doc :
  In (id, doc) (missingPermissions db ids) <->
  Permission db !! id = Some doc
  /\ In (name doc) requiredPermissionNames
  /\ ~ In (name doc) (perm_name <$> populate db ids).
Proof.
  unfold missingPermissions, Permission_find_name_in.
  rewrite !filter_In, <- list_elem_of_In, elem_of_map_to_list.
  cbn [fst snd]. rewrite negb_true_iff, <- includes_In, <- includes_In.
  rewrite <- not_true_iff_false. tauto.
Qed.

(** * The code on the sample deployment *)

Section OnSample.
Import Sample.

(** C10 at a token that carries a number the account no longer has. *)
Lemma auth_renumbered_account_not_found_witness :
  Sample.auth db (request "renumbered.jwt" "")
  = (Respond (json 401 "User not found" (Some "USER_NOT_FOUND")), db).
Proof.
  apply (auth_renumbered_account_not_found jwt_decode env db
           (request "renumbered.jwt" "") "renumbered.jwt"
           (mkJwtPayload (account_id 7) "AC999999" "employee" None)
           (account_id 7) employee).
  - reflexivity.
  - discriminate.
  - reflexivity.
  - reflexivity.
  - vm_compute. reflexivity.
  - vm_compute. discriminate.
Defined.

(** C2 at the sample admin, whose stored grant set was empty. *)
Lemma admin_grant_set_is_catalog_witness :
  let db' := (Sample.auth db (request "admin.jwt" "")).2 in
  Permission db' = Permission db /\
  exists d',
    User db' !! account_id 1 = Some d' /\
    doc_permissions d' = fst <$> Permission_find_all db' /\
    NoDup (doc_permissions d') /\
    forall id, id ∈ doc_permissions d' <-> is_Some (Permission db' !! id).
Proof.
  apply (admin_grant_set_is_catalog jwt_decode env db
           (request "admin.jwt" "") "admin.jwt"
           (mkJwtPayload (account_id 1) "AC000001" "admin" None)
           (account_id 1) admin).
  - reflexivity.
  - discriminate.
  - reflexivity.
  - reflexivity.
  - vm_compute. reflexivity.
  - reflexivity.
  - reflexivity.
Defined.

(** C8 (amended) at a token that expired one second ago. *)
Lemma auth_expired_token_invalid_token_witness :
  Sample.auth db (request "expired.jwt" "")
  = (Respond (json 401 "Invalid token" (Some "INVALID_TOKEN")), db).
Proof.
  apply (auth_expired_token_invalid_token jwt_decode env db
           (request "expired.jwt" "") "expired.jwt"
           (token_for (account_id 7) "AC000007" "employee" 999) 999%Z).
  - reflexivity.
  - discriminate.
  - reflexivity.
  - reflexivity.
  - vm_compute. discriminate.
Defined.

(** C8 as stated fails: the token below is sound but for its expiry, one
    second in the past; [jwt.verify] throws TokenExpiredError; and the
    answer is the very answer a malformed token gets, 401 INVALID_TOKEN. *)
Lemma expired_token_answer_not_distinct :
  jwt_decode "expired.jwt"
    = Some (token_for (account_id 7) "AC000007" "employee" 999)
  /\ (999 = clockTimestamp env - 1)%Z
  /\ jwt_verify jwt_decode (clockTimestamp env) "expired.jwt" (secretOrKey env)
       ["HS256"] = inl TokenExpiredError
  /\ jwt_decode "garbage" = None
  /\ (Sample.auth db (request "expired.jwt" "")).1
     = Respond (json 401 "Invalid token" (Some "INVALID_TOKEN"))
  /\ (Sample.auth db (request "garbage" "")).1
     = (Sample.auth db (request "expired.jwt" "")).1.
Proof. repeat split; vm_compute; reflexivity. Qed.

(** C1 on the code: an employee holding exactly the employee baseline makes
    one authenticated request; afterwards the stored grant set holds
    [manage_users] and [edit_all_items], neither of which is in the employee
    baseline. *)
Theorem employee_reconciled_beyond_baseline :
  let db' := (Sample.auth db (request "employee.jwt" "")).2 in
  (doc_role <$> User db !! account_id 7) = Some "employee"
  /\ (same_names (ROLE_PERMISSIONS "employee") <$>
        granted_names db (account_id 7)) = Some true
  /\ includes (ROLE_PERMISSIONS "employee") "manage_users" = false
  /\ includes (ROLE_PERMISSIONS "employee") "edit_all_items" = false
  /\ ((fun l => includes l "manage_users") <$>
        granted_names db' (account_id 7)) = Some true
  /\ ((fun l => includes l "edit_all_items") <$>
        granted_names db' (account_id 7)) = Some true.
Proof. repeat split; vm_compute; reflexivity. Qed.

(** C3 on the code: an employee account with no stored grants makes one
    authenticated request.  All thirteen permissions are appended to the
    stored grant set, yet the identity handed on carries the grant set as
    loaded before the append, which is empty, and the guard for a
    permission just granted refuses it. *)
Theorem legacy_identity_is_pre_append :
  let r := Sample.auth db (request "legacy.jwt" "") in
  granted_names db (account_id 8) = Some []
  /\ (length <$> granted_names r.2 (account_id 8)) = Some 13
  /\ ((fun l => includes l "view_dashboard") <$>
        granted_names r.2 (account_id 8)) = Some true
  /\ (permissions <$> identity_of r) = Some []
  /\ (run [Sample.auth; hasPermission "view_dashboard"] db
          (request "legacy.jwt" "")).1
     = Respond (mkResponse 403
                  "You do not have permission to access this page"
                  (Some "PERMISSION_DENIED")).
Proof. repeat split; vm_compute; reflexivity. Qed.

(** C4 on the code: the sample admin asks to revert a delivered item.
    [auth] stores and hands on the whole catalog as the grant set, and the
    guard [hasPermission('admin')] answers 403: no permission is named
    [admin]. *)
Theorem admin_revert_denied :
  let r := delivered_revert_guard jwt_decode env db
             (request "admin.jwt" (item_id 1)) in
  (role <$> identity_of (Sample.auth db (request "admin.jwt" (item_id 1))))
    = Some "admin"
  /\ (doc_permissions <$> User r.2 !! account_id 1)
       = Some (fst <$> Permission_find_all r.2)
  /\ ((fun l => includes l "revert_delivered_status") <$>
        granted_names r.2 (account_id 1)) = Some true
  /\ r.1 = Respond (mkResponse 403
                      "You do not have permission to access this page"
                      (Some "PERMISSION_DENIED")).
Proof. repeat split; vm_compute; reflexivity. Qed.

(** C5 on the code: an employee with the employee baseline (it holds
    [delete_own_items] and not [delete_all_items]) asks to delete a lost
    item another account found.  The composite guard is false for this
    identity and this item, and DELETE /items/:id of
    [routes/items.routes.ts] answers 200 and removes the item. *)
Theorem items_routes_unguarded :
  let who := identity_of (Sample.auth db (request "employee.jwt" (item_id 2))) in
  let del := items_delete jwt_decode env db
               (request "employee.jwt" (item_id 2)) in
  (li_foundBy <$> LostItem db !! item_id 2) = Some (account_id 8)
  /\ (user_id <$> who) = Some (account_id 7)
  /\ (role <$> who) = Some "employee"
  /\ ((fun u => some_matches (permissions u) "delete_all_items") <$> who)
     = Some false
  /\ ((fun u => canActOnResource "delete" u (account_id 8)) <$> who)
     = Some false
  /\ del.1 = json 200 "Item deleted successfully" None
  /\ LostItem del.2 !! item_id 2 = None.
Proof. repeat split; vm_compute; reflexivity. Qed.

End OnSample.

(** * Further properties of the middleware *)

(** ** Requests without a token *)

Lemma substring_all (s : string) : String.substring 0 (String.length s) s = s.
Proof. induction s as [|c s IH]; [reflexivity|]. cbn. by rewrite IH. Qed.

Lemma prefix_split (pat s : string) :
  String.prefix pat s = true ->
  s = String.append pat
        (String.substring (String.length pat)
           (String.length s - String.length pat) s).
Proof.
  revert s. induction pat as [|a pat IH]; intros s Hp.
  - cbn. by rewrite Nat.sub_0_r, substring_all.
  - destruct s as [|c s]; [discriminate Hp|].
    simpl in Hp. destruct (ascii_dec a c) as [->|]; [|discriminate Hp].
    cbn [String.length String.substring Nat.sub].
    change (String.append (String c pat) ?x) with (String c (String.append pat x)).
    f_equal. by apply IH.
Qed.

Lemma replace_unfold (pat rep s : string) :
  replace pat rep s
  = if String.prefix pat s
    then String.append rep
           (String.substring (String.length pat)
              (String.length s - String.length pat) s)
    else match s with
         | EmptyString => EmptyString
         | String c s' => String c (replace pat rep s')
         end.
Proof. by destruct s. Qed.

Lemma replace_Bearer_empty (h : string) :
  replace "Bearer " "" h = "" <-> h = "" \/ h = "Bearer ".
Proof.
  split; [|by intros [-> | ->]].
  rewrite replace_unfold.
  destruct (String.prefix "Bearer " h) eqn:Hp.
  - intros Hrest. apply prefix_split in Hp.
    change (String.append "" ?x) with x in Hrest.
    rewrite Hrest in Hp. by right.
  - destruct h; [by left|discriminate].
Qed.

(** [auth] answers 401 NO_TOKEN exactly when the Authorization header is
    absent, empty, or nothing but the prefix [Bearer ]; the store is then
    left as it was. *)
Theorem auth_no_token_iff jwt_decode env db req :
  auth jwt_decode env db req
  = (Respond (json 401 "No authentication token provided" (Some "NO_TOKEN")), db)
  <-> header_Authorization req = None
      \/ header_Authorization req = Some ""
      \/ header_Authorization req = Some "Bearer ".
Proof.
  split.
  - intros Hres.
    destruct (auth_cases jwt_decode env db req)
      as [(res & H & Hst)|(tok & decoded & oid & d & Hh & Hne & Hv & Ho & Hf & Hn)].
    + clear H Hst. unfold auth in Hres.
      destruct (header_Authorization req) as [h|]; [|by left]. right.
      cbn [fmap option_fmap option_map] in Hres.
      apply or_comm, or_comm.
      destruct (replace "Bearer " "" h) as [|c t] eqn:Hrep.
      * apply replace_Bearer_empty in Hrep as [-> | ->]; auto.
      * exfalso.
        destruct (jwt_verify _ _ _ _ _); [discriminate|].
        destruct (new_ObjectId _); [|discriminate].
        destruct (User_findOne _ _ _); [|discriminate].
        destruct (String.eqb _ _); [|discriminate].
        destruct (User_findByIdAndUpdate _ _ _). discriminate.
    + exfalso. destruct (decide (doc_role d = "admin")) as [Hr|Hr].
      * rewrite (auth_admin jwt_decode env db req tok decoded oid d
                   Hh Hne Hv Ho Hf Hn Hr) in Hres. discriminate.
      * rewrite (auth_non_admin jwt_decode env db req tok decoded oid d
                   Hh Hne Hv Ho Hf Hn Hr) in Hres. discriminate.
  - unfold auth. by intros [-> | [-> | ->]].
Qed.

(** ** What [auth] writes *)

(** The store after [auth]: as it was, or with the grant set of the one
    account the token names replaced: by the whole catalog for an admin,
    by the old grants followed by the missing ones otherwise. *)
Lemma auth_store jwt_decode env db req :
  (auth jwt_decode env db req).2 = db
  \/ exists oid d ids,
       User db !! oid = Some d
       /\ (auth jwt_decode env db req).2
          = set_User (insert oid (set_permissions ids d)) db
       /\ ((doc_role d = "admin" /\ ids = fst <$> Permission_find_all db)
           \/ (doc_role d <> "admin"
               /\ ids = doc_permissions d
                        ++ (fst <$> missingPermissions db (doc_permissions d)))).
Proof.
  destruct (auth_cases jwt_decode env db req)
    as [(res & H & _)|(tok & decoded & oid & d & Hh & Hne & Hv & Ho & Hf & Hn)].
  - left. by rewrite H.
  - destruct (decide (doc_role d = "admin")) as [Hr|Hr].
    + right. exists oid, d, (fst <$> Permission_find_all db).
      rewrite (auth_admin jwt_decode env db req tok decoded oid d
                 Hh Hne Hv Ho Hf Hn Hr). by auto.
    + rewrite (auth_non_admin jwt_decode env db req tok decoded oid d
                 Hh Hne Hv Ho Hf Hn Hr). cbn [snd].
      destruct (Nat.ltb 0 _); [|by left].
      right. exists oid, d. eexists. split; [done|]. split; [reflexivity|].
      right. by split.
Qed.

Lemma auth_store_frame jwt_decode env db req :
  let db' := (auth jwt_decode env db req).2 in
  Permission db' = Permission db
  /\ DeliveredItem db' = DeliveredItem db
  /\ LostItem db' = LostItem db
  /\ (forall id, without_permissions <$> User db' !! id
                 = without_permissions <$> User db !! id)
  /\ (forall id1 id2, User db' !! id1 <> User db !! id1 ->
                      User db' !! id2 <> User db !! id2 -> id1 = id2).
Proof.
  cbn zeta.
  destruct (auth_store jwt_decode env db req)
    as [-> | (oid & d & ids & Hf & -> & _)]; [by repeat split|].
  cbn. repeat split.
  - intros id. destruct (decide (oid = id)) as [<-|Hne].
    + by rewrite lookup_insert_eq, Hf.
    + by rewrite lookup_insert_ne.
  - intros id1 id2 H1 H2.
    destruct (decide (oid = id1)) as [<-|Hne1];
      [|by rewrite lookup_insert_ne in H1].
    destruct (decide (oid = id2)) as [<-|Hne2];
      [done|by rewrite lookup_insert_ne in H2].
Qed.

(** [auth] writes to nothing but the grant set of one account: no collection
    other than User changes, no account appears or disappears, no field of
    an account other than its grant set changes, and at most one account's
    document differs afterwards. *)
Theorem auth_frame jwt_decode env db req :
  let db' := (auth jwt_decode env db req).2 in
  Permission db' = Permission db
  /\ DeliveredItem db' = DeliveredItem db
  /\ LostItem db' = LostItem db
  /\ (forall id, without_permissions <$> User db' !! id
                 = without_permissions <$> User db !! id)
  /\ (forall id1 id2, User db' !! id1 <> User db !! id1 ->
                      User db' !! id2 <> User db !! id2 -> id1 = id2).
Proof. exact (auth_store_frame jwt_decode env db req). Qed.

(** ** Deleting a lost item, on the route *)

(** DELETE /items/:id for whoever passes [auth]: a stored item is removed
    and the answer is 200, with no regard to the identity [auth] attached. *)
Lemma items_delete_any_requester jwt_decode env db req req' db1 id item :
  auth jwt_decode env db req = (Next req', db1) ->
  new_ObjectId (params_id req) = Some id ->
  LostItem db !! id = Some item ->
  items_delete jwt_decode env db req
  = (json 200 "Item deleted successfully" None, set_LostItem (delete id) db1).
Proof.
  intros Hauth Hid Hitem. unfold items_delete, route, run. rewrite Hauth.
  pose proof (auth_store_frame jwt_decode env db req) as (_ & _ & HL & _).
  rewrite Hauth in HL. cbn [snd] in HL.
  apply (items_delete_handler_unguarded db1 req' id item).
  - by rewrite (auth_next_params _ _ _ _ _ _ Hauth).
  - by rewrite HL.
Qed.

(** ** Deleting a permission, on the route *)

(** C7: a successful DELETE of a permission P leaves no reference to it and
    loses nothing else.  P was in the catalog and is the only entry taken
    from it; no account stored afterwards holds P; every account stored
    before the request is still stored, with every field but its grant set
    as it was and without P; and each account's grant set is the one the
    route's [auth] step left, with the occurrences of P taken out and every
    other grant kept in place. *)
Theorem permission_delete_no_dangling jwt_decode env db req res db' :
  permission_delete jwt_decode env db req = (res, db') ->
  status res = 200 ->
  exists id,
    new_ObjectId (params_id req) = Some id
    /\ is_Some (Permission db !! id)
    /\ Permission db' = delete id (Permission db)
    /\ (forall uid u, User db' !! uid = Some u -> id ∉ doc_permissions u)
    /\ (forall uid u, User db !! uid = Some u ->
         exists u', User db' !! uid = Some u'
                    /\ (id ∉ doc_permissions u')
                    /\ without_permissions u' = without_permissions u)
    /\ (forall uid,
         User db' !! uid
         = (fun u => set_permissions
                       (List.filter (fun x => negb (String.eqb x id))
                                    (doc_permissions u)) u)
           <$> User (auth jwt_decode env db req).2 !! uid)
    /\ DeliveredItem db' = DeliveredItem db
    /\ LostItem db' = LostItem db.
Proof.
  unfold permission_delete, route, run. intros Hrun Hok.
  pose proof (auth_store_frame jwt_decode env db req)
    as (HP & HD & HL & HU & _).
  destruct (auth jwt_decode env db req) as [[req'|res'] db1] eqn:Hauth;
    cbn [snd] in HP, HD, HL, HU.
  - destruct (permission_delete_handler_pulls _ _ _ _ Hrun Hok)
      as (id & Hid & Hstored & ->).
    exists id. rewrite <- (auth_next_params _ _ _ _ _ _ Hauth), <- HP.
    assert (Hlookup := User_updateMany_pull_lookup id
                         (set_Permission (delete id) db1)).
    cbn [User set_Permission] in Hlookup.
    repeat split; try done.
    + intros uid u. rewrite Hlookup.
      destruct (User db1 !! uid) as [u1|]; [|discriminate].
      intros [= <-]. cbn. rewrite list_elem_of_In. apply pull_removes.
    + intros uid u Hu. specialize (HU uid). rewrite Hu in HU.
      rewrite Hlookup.
      destruct (User db1 !! uid) as [u1|]; [|discriminate].
      assert (HU' : Some (without_permissions u1) = Some (without_permissions u))
        by exact HU.
      apply (inj Some) in HU'. eexists. split; [reflexivity|]. split.
      * cbn. rewrite list_elem_of_In. apply pull_removes.
      * by rewrite <- HU'.
  - inversion Hrun; subst.
    apply auth_respond_status in Hauth. congruence.
Qed.


(** [auth] never takes a grant from an account that is not an admin: whatever
    the request, such an account is still there afterwards and its stored
    grant set starts with the grant set it had. *)
Theorem auth_keeps_grants jwt_decode env db req id d :
  User db !! id = Some d ->
  doc_role d <> "admin" ->
  exists d' extra,
    User (auth jwt_decode env db req).2 !! id = Some d'
    /\ doc_permissions d' = doc_permissions d ++ extra.
Proof.
  intros Hd Hrole.
  destruct (auth_store jwt_decode env db req)
    as [-> | (oid & d0 & ids & Hf & -> & Hids)].
  - exists d, []. by rewrite app_nil_r.
  - cbn. destruct (decide (oid = id)) as [<-|Hne].
    + rewrite lookup_insert_eq. rewrite Hf in Hd. injection Hd as ->.
      destruct Hids as [[Hadm _]|[_ ->]]; [done|]. by eexists _, _.
    + rewrite lookup_insert_ne by done. exists d, []. by rewrite app_nil_r.
Qed.

Section AuthenticatedMore.
Variable jwt_decode : string -> option Jwt.
Variable env : Env.
Variables (db : Store) (req : Request) (tok : string) (decoded : JwtPayload).
Variables (oid : ObjectId) (d : UserDoc).

Hypothesis Hheader : replace "Bearer " "" <$> header_Authorization req = Some tok.
Hypothesis Htok : tok <> "".
Hypothesis Hverify :
  jwt_verify jwt_decode (clockTimestamp env) tok (secretOrKey env) ["HS256"]
  = inr decoded.
Hypothesis Hoid : new_ObjectId (jp_id decoded) = Some oid.
Hypothesis Hfound : User db !! oid = Some d.
Hypothesis Hnumber : doc_employeeNumber d = jp_employeeNumber decoded.

Lemma auth_non_admin_granted :
  doc_role d <> "admin" ->
  granted_names (auth jwt_decode env db req).2 oid
  = Some (perm_name <$>
            populate db (doc_permissions d
                         ++ (fst <$> missingPermissions db (doc_permissions d)))).
Proof.
  intros Hrole.
  rewrite (auth_non_admin jwt_decode env db req tok decoded oid d
             Hheader Htok Hverify Hoid Hfound Hnumber Hrole). cbn [snd].
  unfold granted_names.
  destruct (missingPermissions db (doc_permissions d)) as [|e l] eqn:Hm.
  - cbn. by rewrite Hfound, app_nil_r.
  - cbn. by rewrite lookup_insert_eq.
Qed.

Lemma auth_non_admin_required_granted pid doc :
  doc_role d <> "admin" ->
  Permission db !! pid = Some doc ->
  In (name doc) requiredPermissionNames ->
  exists names,
    granted_names (auth jwt_decode env db req).2 oid = Some names
    /\ In (name doc) names.
Proof.
  intros Hrole Hdoc Hreq. rewrite (auth_non_admin_granted Hrole).
  eexists. split; [reflexivity|].
  set (ids' := doc_permissions d ++ _).
  destruct (includes (perm_name <$> populate db ids') (name doc)) eqn:Hinc;
    [by apply includes_In|].
  exfalso.
  assert (Hin : In (pid, doc) (missingPermissions db ids')).
  { apply missingPermissions_iff. repeat split; [done..|].
    rewrite <- includes_In. by rewrite Hinc. }
  unfold ids' in Hin. by rewrite missingPermissions_after_push in Hin.
Qed.

(** After an authenticated request of an account that is not an admin, every
    stored permission whose name is on the fixed list of [auth] is among the
    account's stored grants. *)
Theorem auth_non_admin_grants_required pid doc :
  doc_role d <> "admin" ->
  Permission db !! pid = Some doc ->
  In (name doc) requiredPermissionNames ->
  exists names,
    granted_names (auth jwt_decode env db req).2 oid = Some names
    /\ In (name doc) names.
Proof. exact (auth_non_admin_required_granted pid doc). Qed.


(** The guard [adminOnly] behind [auth] goes by the role stored for the
    account, whatever role the token claims. *)
Theorem auth_adminOnly_by_stored_role :
  admits (run [auth jwt_decode env; adminOnly] db req)
  = String.eqb (doc_role d) "admin".
Proof.
  unfold run. destruct (decide (doc_role d = "admin")) as [Hr|Hr].
  - rewrite (auth_admin jwt_decode env db req tok decoded oid d
               Hheader Htok Hverify Hoid Hfound Hnumber Hr).
    unfold adminOnly. cbn. by rewrite Hr.
  - rewrite (auth_non_admin jwt_decode env db req tok decoded oid d
               Hheader Htok Hverify Hoid Hfound Hnumber Hr).
    unfold adminOnly. cbn.
    by destruct (String.eqb_spec (doc_role d) "admin").
Qed.

(** An admin gets through [hasAnyPermission] behind [auth] whatever names
    the guard lists and whatever the catalog holds, the empty list and the
    empty catalog included. *)
Theorem auth_hasAnyPermission_admin (permissionNames : list string) :
  doc_role d = "admin" ->
  admits (run [auth jwt_decode env; hasAnyPermission permissionNames] db req)
  = true.
Proof.
  intros Hr. unfold run.
  rewrite (auth_admin jwt_decode env db req tok decoded oid d
             Hheader Htok Hverify Hoid Hfound Hnumber Hr).
  unfold hasAnyPermission. cbn. by rewrite Hr.
Qed.

(** An admin gets through [hasPermission(n)] behind [auth] exactly when the
    catalog holds a permission named [n]. *)
Theorem auth_hasPermission_admin (n : string) :
  doc_role d = "admin" ->
  admits (run [auth jwt_decode env; hasPermission n] db req) = true
  <-> In n (catalog_names db).
Proof.
  intros Hr. unfold run.
  rewrite (auth_admin jwt_decode env db req tok decoded oid d
             Hheader Htok Hverify Hoid Hfound Hnumber Hr).
  unfold hasPermission, admits. cbn [user with_user toObject populated
    ud_permissions permissions doc_permissions set_permissions].
  change (populate (set_User _ db) ?l) with (populate db l).
  unfold Permission_find_all.
  rewrite populate_found
    by (intros [i x] Hix%list_elem_of_In; by apply elem_of_map_to_list).
  unfold catalog_names.
  destruct (existsb _ _) eqn:Hex; cbn.
  - split; [intros _|done].
    apply existsb_exists in Hex as (p & Hp & Hm).
    apply list_elem_of_In, list_elem_of_fmap in Hp as (ip & -> & Hip).
    apply list_elem_of_fmap in Hip as (e & -> & He).
    cbn in Hm. apply String.eqb_eq in Hm. subst n.
    apply list_elem_of_In, list_elem_of_fmap. by exists e.
  - split; [done|]. intros Hn. exfalso.
    apply list_elem_of_In, list_elem_of_fmap in Hn as (e & -> & He).
    apply not_true_iff_false in Hex. apply Hex, existsb_exists.
    exists (PObject (hydrate e)). split.
    + apply list_elem_of_In, list_elem_of_fmap. eexists. split; [done|].
      apply list_elem_of_fmap. by exists e.
    + cbn. apply String.eqb_refl.
Qed.

End AuthenticatedMore.

(** The role baselines of [routes/user.routes.ts] name nothing that is not
    on the fixed list of [auth]. *)
Lemma ROLE_PERMISSIONS_required (r n : string) :
  In n (Sample.ROLE_PERMISSIONS r) -> In n requiredPermissionNames.
Proof.
  intros Hn. apply includes_In.
  assert (Hall : forall l, forallb (includes requiredPermissionNames) l = true ->
                           In n l -> includes requiredPermissionNames n = true).
  { intros l Hl Hnl. by apply (proj1 (forallb_forall _ _) Hl). }
  unfold Sample.ROLE_PERMISSIONS in Hn.
  repeat match type of Hn with
  | context [String.eqb ?a ?b] => destruct (String.eqb a b)
  end; try (by eapply Hall; [|exact Hn]); by destruct Hn.
Qed.

(** After an authenticated request of an account that is not an admin, its
    stored grants cover the baseline of its role, as far as the catalog
    holds the baseline's permissions. *)
Theorem auth_non_admin_covers_baseline
    jwt_decode env db req tok decoded oid d n :
  replace "Bearer " "" <$> header_Authorization req = Some tok ->
  tok <> "" ->
  jwt_verify jwt_decode (clockTimestamp env) tok (secretOrKey env) ["HS256"]
  = inr decoded ->
  new_ObjectId (jp_id decoded) = Some oid ->
  User db !! oid = Some d ->
  doc_employeeNumber d = jp_employeeNumber decoded ->
  doc_role d <> "admin" ->
  In n (Sample.ROLE_PERMISSIONS (doc_role d)) ->
  In n (catalog_names db) ->
  exists names,
    granted_names (auth jwt_decode env db req).2 oid = Some names
    /\ In n names.
Proof.
  intros Hh Hne Hv Ho Hf Hn Hr Hbase Hcat.
  apply list_elem_of_In, list_elem_of_fmap in Hcat as ([pid doc] & -> & He).
  apply elem_of_map_to_list in He.
  apply (auth_non_admin_required_granted jwt_decode env db req tok decoded oid d
           Hh Hne Hv Ho Hf Hn pid doc Hr He).
  by eapply ROLE_PERMISSIONS_required.
Qed.

(** The role and the permissions a token claims play no part: two verified
    tokens naming the same account id and employee number leave the same
    store and hand on the same identity. *)
Theorem auth_ignores_token_claims
    jwt_decode env db req1 req2 tok1 tok2 dec1 dec2 :
  replace "Bearer " "" <$> header_Authorization req1 = Some tok1 ->
  tok1 <> "" ->
  jwt_verify jwt_decode (clockTimestamp env) tok1 (secretOrKey env) ["HS256"]
  = inr dec1 ->
  replace "Bearer " "" <$> header_Authorization req2 = Some tok2 ->
  tok2 <> "" ->
  jwt_verify jwt_decode (clockTimestamp env) tok2 (secretOrKey env) ["HS256"]
  = inr dec2 ->
  jp_id dec1 = jp_id dec2 ->
  jp_employeeNumber dec1 = jp_employeeNumber dec2 ->
  (auth jwt_decode env db req1).2 = (auth jwt_decode env db req2).2
  /\ identity_of (auth jwt_decode env db req1)
     = identity_of (auth jwt_decode env db req2).
Proof.
  intros Hh1 Hne1 Hv1 Hh2 Hne2 Hv2 Hid Hnum.
  unfold identity_of, auth. rewrite Hh1, Hh2.
  destruct tok1 as [|c1 t1]; [done|]. destruct tok2 as [|c2 t2]; [done|].
  rewrite Hv1, Hv2, Hid, Hnum.
  destruct (new_ObjectId (jp_id dec2)); [|done].
  destruct (User_findOne _ _ _); [|done].
  destruct (String.eqb _ _); [|done].
  by destruct (User_findByIdAndUpdate _ _ _).
Qed.

(** ** The two guards against each other *)

Lemma existsb_ext_in' {A} (l : list A) (f g : A -> bool) :
  (forall a, f a = g a) -> existsb f l = existsb g l.
Proof. intros H. induction l as [|a l IH]; [reflexivity|]. cbn. by rewrite H, IH. Qed.

Lemma existsb_swap {A B} (f : A -> B -> bool) (la : list A) (lb : list B) :
  existsb (fun a => existsb (fun b => f a b) lb) la
  = existsb (fun b => existsb (fun a => f a b) la) lb.
Proof.
  induction la as [|a la IH]; cbn.
  - induction lb as [|b lb IHb]; [reflexivity|]. cbn. by rewrite <- IHb.
  - rewrite IH. clear IH.
    induction lb as [|b lb IHb]; [reflexivity|]. cbn. rewrite <- IHb.
    destruct (f a b), (existsb (fun a0 => f a0 b) la),
             (existsb (fun b0 => f a b0) lb); reflexivity.
Qed.

Lemma admits_hasPermission (n : string) db req :
  admits (hasPermission n db req)
  = match user req with
    | Some u => existsb (fun p => matchesPermission p n) (permissions u)
    | None => false
    end.
Proof.
  unfold hasPermission, admits. destruct (user req) as [u|]; [|reflexivity].
  by destruct (existsb _ _).
Qed.

(** For an identity that is not an admin, [hasAnyPermission(names)] hands the
    request on exactly when [hasPermission(n)] would for some [n] of
    [names]; with no names it refuses. *)
Theorem hasAnyPermission_as_hasPermission (names : list string) db req :
  (forall u, user req = Some u -> role u <> "admin") ->
  admits (hasAnyPermission names db req)
  = existsb (fun n => admits (hasPermission n db req)) names.
Proof.
  intros Hrole.
  rewrite (existsb_ext_in' names
             (fun n => admits (hasPermission n db req))
             (fun n => match user req with
                       | Some u => existsb (fun p => matchesPermission p n)
                                           (permissions u)
                       | None => false
                       end))
    by (intros n; apply admits_hasPermission).
  unfold hasAnyPermission, admits.
  destruct (user req) as [u|].
  - destruct (String.eqb_spec (role u) "admin") as [Hadm|_];
      [by destruct (Hrole u eq_refl)|].
    rewrite <- existsb_swap. by destruct (existsb _ _).
  - by induction names.
Qed.

(** * Further properties of the routes *)

(** ** Status normalisation *)

(** [normalizeStatus] answers one of the three statuses and leaves each of
    them as it is, so normalising twice is normalising once. *)
Theorem normalizeStatus_canonical (s : string) :
  (normalizeStatus s = "onHand" \/ normalizeStatus s = "delivered"
   \/ normalizeStatus s = "inProcess")
  /\ normalizeStatus (normalizeStatus s) = normalizeStatus s.
Proof.
  assert (Hrange : normalizeStatus s = "onHand"
                   \/ normalizeStatus s = "delivered"
                   \/ normalizeStatus s = "inProcess").
  { unfold normalizeStatus.
    destruct (str_includes "onhand" (toLowerCase s)
              || str_includes "on hand" (toLowerCase s)); [by left|].
    destruct (str_includes "deliver" (toLowerCase s)); [by right; left|].
    destruct (str_includes "process" (toLowerCase s)); by auto. }
  split; [exact Hrange|].
  by destruct Hrange as [-> | [-> | ->]].
Qed.

(** ** Who is shown which items *)

Section ReadingProperties.
Variable sort_dateFound :
  list (ObjectId * LostItemDoc) -> list (ObjectId * LostItemDoc).
Hypothesis sort_dateFound_perm : forall l, sort_dateFound l ≡ₚ l.


End ReadingProperties.

(** ** A delete that never happens *)

(** DELETE /delivered-items/:id deletes nothing.  Whatever the request, the
    answer is never 200 and the store is the one [auth] left, so no
    delivered item, lost item or permission changes; and a request that
    passes [auth] and [hasAnyPermission] and addresses a stored item, an
    admin's included, is answered 500: the handler throws on
    [item.foundBy], a path its model does not have. *)
Theorem delivered_delete_effect jwt_decode env db req :
  let guards := [auth jwt_decode env;
                 hasAnyPermission ["delete_all_items"; "delete_own_items"]] in
  let r := delivered_delete jwt_decode env db req in
  status r.1 <> 200
  /\ r.2 = (auth jwt_decode env db req).2
  /\ DeliveredItem r.2 = DeliveredItem db
  /\ LostItem r.2 = LostItem db
  /\ Permission r.2 = Permission db
  /\ (forall id,
        admits (run guards db req) = true ->
        new_ObjectId (params_id req) = Some id ->
        is_Some (DeliveredItem db !! id) ->
        r.1 = json 500 "Error al eliminar el item" None).
Proof.
  cbn zeta.
  pose proof (auth_store_frame jwt_decode env db req) as (HP & HD & HL & _).
  unfold delivered_delete, route, admits, run.
  destruct (auth jwt_decode env db req) as [[req1|res1] db1] eqn:Hauth;
    cbn [snd fst] in *.
  - pose proof (auth_next_params _ _ _ _ _ _ Hauth) as Hparams.
    destruct (hasAnyPermission _ db1 req1) as [[req2|res2] db2] eqn:Hany.
    + assert (req2 = req1 /\ db2 = db1) as [-> ->].
      { unfold hasAnyPermission in Hany.
        destruct (user req1) as [u|]; [|discriminate].
        destruct (String.eqb (role u) "admin"); [by inversion Hany|].
        destruct (negb _); [discriminate|by inversion Hany]. }
      unfold delivered_delete_handler. rewrite Hparams.
      destruct (new_ObjectId (params_id req)) as [id|];
        [|by repeat split; try done; intros ? _ [=]].
      rewrite HD.
      destruct (DeliveredItem db !! id) as [item|] eqn:Hitem.
      * destruct (user req1) as [u|]; by repeat split.
      * repeat split; try done. intros id' _ [= <-] [x Hx]. congruence.
    + assert (status res2 = 403 /\ db2 = db1) as [Hst ->].
      { unfold hasAnyPermission in Hany.
        destruct (user req1) as [u|]; [|by inversion Hany].
        destruct (String.eqb (role u) "admin"); [discriminate|].
        destruct (negb _); [by inversion Hany|discriminate]. }
      cbn [fst snd]. by repeat split; try done; rewrite ?Hst.
  - apply auth_respond_status in Hauth.
    by repeat split; try done; rewrite ?Hauth.
Qed.

(** ** Creating permissions *)

Lemma Permission_name_exists_iff (n : string) (db : Store) :
  Permission_name_exists n db = true <-> In n (catalog_names db).
Proof.
  unfold Permission_name_exists, catalog_names.
  rewrite existsb_exists, <- list_elem_of_In, list_elem_of_fmap. split.
  - intros (e & He & Hn). apply String.eqb_eq in Hn.
    exists e. split; [done|by apply list_elem_of_In].
  - intros (e & -> & He). exists e.
    split; [by apply list_elem_of_In|apply String.eqb_refl].
Qed.

Lemma catalog_names_insert (db : Store) (id : ObjectId) (doc : PermissionDoc) :
  Permission db !! id = None ->
  catalog_names (set_Permission (insert id doc) db)
  ≡ₚ name doc :: catalog_names db.
Proof.
  intros Hfresh. unfold catalog_names. cbn.
  by rewrite map_to_list_insert.
Qed.

(** POST /permissions keeps permission names unique: if no two stored
    permissions share a name before, none do after, whatever the request;
    a name already taken is answered 400 and nothing is stored. *)
Theorem permission_create_names_unique
    Permission_schema_ok body newId db req :
  NoDup (catalog_names db) ->
  NoDup (catalog_names
           (permission_create_handler Permission_schema_ok body newId db req).2)
  /\ (In (name body) (catalog_names db) ->
      forall requester u,
        user req = Some requester ->
        User db !! user_id requester = Some u ->
        doc_role u = "admin" ->
        permission_create_handler Permission_schema_ok body newId db req
        = (json 400 "Permission already exists" None, db)).
Proof.
  intros Hnodup. unfold permission_create_handler. split.
  - destruct (user req) as [requester|]; [|done].
    destruct (User db !! user_id requester) as [u|]; [|done].
    destruct (negb _); [done|].
    destruct (Permission_name_exists (name body) db) eqn:Hex; [done|].
    destruct (negb _); [done|].
    destruct (Permission db !! newId) eqn:Hfresh; [done|]. cbn [snd].
    rewrite (catalog_names_insert db newId body Hfresh).
    apply NoDup_cons. split; [|done].
    rewrite list_elem_of_In, <- Permission_name_exists_iff. by rewrite Hex.
  - intros Hname requester u -> -> ->. cbn.
    by rewrite (proj2 (Permission_name_exists_iff _ _) Hname).
Qed.

(** The catalog changes only at the hand of an admin: when POST /permissions
    or DELETE /permissions/:id leaves the Permission collection other than
    it found it, the request was authenticated as an account whose stored
    role is admin. *)
Theorem permission_routes_admin_only
    jwt_decode env Permission_schema_ok body newId db req :
  let created :=
    permission_create jwt_decode env Permission_schema_ok body newId db req in
  let deleted := permission_delete jwt_decode env db req in
  Permission created.2 <> Permission db \/ Permission deleted.2 <> Permission db ->
  exists oid d,
    User db !! oid = Some d /\ doc_role d = "admin"
    /\ (user_id <$> identity_of (auth jwt_decode env db req)) = Some oid.
Proof.
  cbn zeta. unfold permission_create, permission_delete, route, run, identity_of.
  pose proof (auth_store_frame jwt_decode env db req) as (HP & _ & _ & HU & _).
  destruct (auth jwt_decode env db req) as [[req1|res1] db1] eqn:Hauth;
    cbn [fst snd] in *; [|by intros [|]].
  unfold permission_create_handler, permission_delete_handler.
  destruct (user req1) as [requester|]; [|by cbn; rewrite HP; intros [|]].
  specialize (HU (user_id requester)).
  destruct (User db1 !! user_id requester) as [u|];
    [|by cbn; rewrite HP; intros [|]].
  destruct (User db !! user_id requester) as [d|] eqn:Hd; [|discriminate HU].
  injection HU as _ _ _ Hrole.
  destruct (String.eqb_spec (doc_role u) "admin") as [Hadm|Hadm];
    [|by cbn; rewrite HP; intros [|]].
  intros _. exists (user_id requester), d. by rewrite <- Hrole.
Qed.

(** ** Accounts and their grants *)

Lemma Permission_find_name_in_names (names : list string) (db : Store) n :
  In n ((fun e => name e.2) <$> Permission_find_name_in names db)
  <-> In n names /\ In n (catalog_names db).
Proof.
  unfold Permission_find_name_in, catalog_names.
  rewrite <- !list_elem_of_In, !list_elem_of_fmap. split.
  - intros (e & -> & He). apply list_elem_of_In, filter_In in He as [He Hinc].
    split; [by apply list_elem_of_In, includes_In|].
    exists e. split; [done|by apply list_elem_of_In].
  - intros [Hn (e & -> & He)]. exists e. split; [done|].
    apply list_elem_of_In, filter_In. split; [by apply list_elem_of_In|].
    by apply includes_In, list_elem_of_In.
Qed.

Lemma Permission_find_name_in_elem (names : list string) (db : Store) e :
  In e (Permission_find_name_in names db) ->
  In (name e.2) names /\ In (name e.2) (catalog_names db).
Proof.
  intros He. apply Permission_find_name_in_names.
  apply list_elem_of_In, list_elem_of_fmap. exists e.
  split; [done|by apply list_elem_of_In].
Qed.

(** The names of the grants an account holds once its grant set is the ids
    of a catalog query. *)
Lemma granted_names_of_query (names : list string) (db : Store) :
  perm_name <$> populate db (fst <$> Permission_find_name_in names db)
  = (fun e => name e.2) <$> Permission_find_name_in names db.
Proof.
  rewrite populate_found by apply Permission_find_name_in_stored.
  by rewrite <- list_fmap_compose.
Qed.

(** POST /users, when it answers 201, stores the account under the new id
    with the role asked for and with exactly the permissions of that role's
    baseline that the catalog holds. *)
Theorem user_create_grants_baseline
    User_schema_ok employeeNumber firstName lastName role newId db req :
  let r := user_create_handler User_schema_ok employeeNumber firstName lastName
                               role newId db req in
  status r.1 = 201 ->
  User db !! newId = None
  /\ (doc_role <$> User r.2 !! newId) = Some (role_name role)
  /\ exists names,
       granted_names r.2 newId = Some names
       /\ forall n, In n names <->
                    In n (ROLE_PERMISSIONS_of role) /\ In n (catalog_names db).
Proof.
  cbn zeta. unfold user_create_handler.
  destruct (User_number_exists _ _); [discriminate|].
  destruct (negb _); [discriminate|].
  destruct (User db !! newId) eqn:Hfresh; [discriminate|]. intros _.
  split; [done|]. unfold granted_names. cbn [snd fst User set_User].
  rewrite lookup_insert_eq. split; [done|].
  eexists. split; [reflexivity|]. intros n. cbn [doc_permissions].
  change (populate (set_User _ db) ?l) with (populate db l).
  rewrite granted_names_of_query. apply Permission_find_name_in_names.
Qed.


Lemma Set_spread_spec (seen ids : list string) :
  NoDup (Set_spread seen ids)
  /\ forall x, In x (Set_spread seen ids) <-> In x ids /\ ~ In x seen.
Proof.
  revert seen. induction ids as [|y ids IH]; intros seen; cbn.
  - split; [constructor|tauto].
  - destruct (includes seen y) eqn:Hy.
    + apply includes_In in Hy. destruct (IH seen) as [Hnd Hin].
      split; [done|]. intros x. rewrite Hin.
      split; [tauto|]. intros [[<-|Hx] Hns]; tauto.
    + assert (Hny : ~ In y seen) by (rewrite <- includes_In; congruence).
      destruct (IH (y :: seen)) as [Hnd Hin]. split.
      * apply NoDup_cons. split; [|done].
        rewrite list_elem_of_In, Hin. cbn. tauto.
      * intros x. cbn. rewrite Hin. cbn.
        destruct (decide (y = x)) as [<-|Hne]; tauto.
Qed.

(** PUT /users/:userId/permissions, when it answers 200, stores for an
    account that is not an admin exactly the requested permissions the
    catalog holds, names the catalog does not hold being dropped in
    silence; for an admin account it stores, each once, the requested ones
    together with the admin baseline, so an admin cannot be left with less
    than that baseline. *)
Theorem user_permissions_stored
    User_schema_ok permissions db req userId target :
  let r := user_permissions_handler User_schema_ok permissions db req in
  new_ObjectId (params_id req) = Some userId ->
  User db !! userId = Some target ->
  status r.1 = 200 ->
  exists names,
    granted_names r.2 userId = Some names
    /\ forall n,
         In n names <->
         In n (catalog_names db)
         /\ (In n permissions
             \/ (doc_role target = "admin" /\ In n ADMIN_PERMISSIONS)).
Proof.
  cbn zeta. intros Hid Htarget. unfold user_permissions_handler.
  rewrite Hid, Htarget.
  destruct (negb (User_schema_ok _)); [discriminate|]. intros _.
  unfold granted_names. cbn [snd fst User set_User].
  rewrite lookup_insert_eq.
  eexists. split; [reflexivity|]. intros n.
  cbn [doc_permissions set_permissions].
  change (populate (set_User _ db) ?l) with (populate db l).
  destruct (String.eqb_spec (doc_role target) "admin") as [Hadm|Hadm].
  - rewrite <- list_elem_of_In, list_elem_of_fmap.
    setoid_rewrite list_elem_of_In.
    assert (Hpop : forall p, In p (populate db (Set_spread []
               ((fst <$> Permission_find_name_in permissions db)
                ++ (fst <$> Permission_find_name_in ADMIN_PERMISSIONS db))))
             <-> exists e, p = hydrate e /\
                   (In e (Permission_find_name_in permissions db)
                    \/ In e (Permission_find_name_in ADMIN_PERMISSIONS db))).
    { intros p. unfold populate.
      rewrite <- list_elem_of_In, list_elem_of_omap.
      setoid_rewrite list_elem_of_In.
      setoid_rewrite (proj2 (Set_spread_spec [] _)).
      setoid_rewrite in_app_iff.
      setoid_rewrite <- list_elem_of_In.
      setoid_rewrite list_elem_of_fmap.
      setoid_rewrite list_elem_of_In.
      unfold populate_ref. split.
      - intros (id & [[([i doc] & -> & He)|([i doc] & -> & He)] _] & Hp);
          pose proof (Permission_find_name_in_stored _ _ _ He) as Hst;
          cbn in Hst, Hp; rewrite Hst in Hp; injection Hp as <-;
          exists (i, doc); auto.
      - intros ([i doc] & -> & He). exists i.
        assert (Hst : Permission db !! i = Some doc)
          by (destruct He as [He|He];
              exact (Permission_find_name_in_stored _ _ _ He)).
        rewrite Hst. split; [|done]. split; [|by intros []].
        destruct He as [He|He]; [left|right]; by exists (i, doc). }
    split.
    + intros (p & -> & Hp). apply Hpop in Hp as (e & -> & He). cbn.
      destruct He as [He|He];
        apply Permission_find_name_in_elem in He; tauto.
    + intros [Hcat Hreq].
      assert (Hn : exists e, n = name e.2
                /\ (In e (Permission_find_name_in permissions db)
                    \/ In e (Permission_find_name_in ADMIN_PERMISSIONS db))).
      { destruct Hreq as [Hreq|[_ Hreq]].
        - pose proof (proj2 (Permission_find_name_in_names permissions db n)
                        (conj Hreq Hcat)) as Hin.
          apply list_elem_of_In, list_elem_of_fmap in Hin as (e & -> & He).
          exists e. split; [done|]. left. by apply list_elem_of_In.
        - pose proof (proj2 (Permission_find_name_in_names ADMIN_PERMISSIONS db n)
                        (conj Hreq Hcat)) as Hin.
          apply list_elem_of_In, list_elem_of_fmap in Hin as (e & -> & He).
          exists e. split; [done|]. right. by apply list_elem_of_In. }
      destruct Hn as (e & -> & He). exists (hydrate e). split; [done|].
      apply Hpop. by exists e.
  - rewrite granted_names_of_query, Permission_find_name_in_names. tauto.
Qed.

(** ** Employee numbers stay unique *)

Lemma User_number_exists_iff (n : string) (db : Store) :
  User_number_exists n db = true <-> In n (account_numbers db).
Proof.
  unfold User_number_exists, account_numbers.
  rewrite existsb_exists, <- list_elem_of_In, list_elem_of_fmap. split.
  - intros (e & He & Hn). apply String.eqb_eq in Hn.
    exists e. split; [done|by apply list_elem_of_In].
  - intros (e & -> & He). exists e.
    split; [by apply list_elem_of_In|apply String.eqb_refl].
Qed.

Lemma account_numbers_insert_fresh (db : Store) id u :
  User db !! id = None ->
  account_numbers (set_User (insert id u) db)
  ≡ₚ doc_employeeNumber u :: account_numbers db.
Proof.
  intros Hfresh. unfold account_numbers. cbn. by rewrite map_to_list_insert.
Qed.

Lemma account_numbers_insert_same (db : Store) id u u' :
  User db !! id = Some u ->
  doc_employeeNumber u' = doc_employeeNumber u ->
  account_numbers (set_User (insert id u') db) ≡ₚ account_numbers db.
Proof.
  intros Hu Hnum. unfold account_numbers. cbn.
  rewrite <- (insert_delete_eq (User db) id u') at 1.
  rewrite <- (insert_delete_id (User db) id u Hu) at 2.
  rewrite !map_to_list_insert by apply lookup_delete_eq.
  cbn. by rewrite Hnum.
Qed.

(** No two accounts come to share an employee number: if the numbers are
    pairwise distinct before, they are after [auth], after POST /users,
    after PUT /users/:id and after PUT /users/:userId/permissions,
    whatever the request; POST /users answers 400 to a number already
    taken and stores nothing. *)
Theorem user_routes_keep_numbers_unique
    jwt_decode env User_schema_ok db req
    employeeNumber firstName lastName role newId permissions :
  NoDup (account_numbers db) ->
  NoDup (account_numbers (auth jwt_decode env db req).2)
  /\ NoDup (account_numbers
              (user_create_handler User_schema_ok employeeNumber firstName
                                   lastName role newId db req).2)
  /\ NoDup (account_numbers
              (user_update_handler User_schema_ok firstName lastName role
                                   db req).2)
  /\ NoDup (account_numbers
              (user_permissions_handler User_schema_ok permissions db req).2)
  /\ (In employeeNumber (account_numbers db) ->
      user_create_handler User_schema_ok employeeNumber firstName lastName
                          role newId db req
      = (json 400 "Employee number already exists" None, db)).
Proof.
  intros Hnodup. repeat split.
  - destruct (auth_store jwt_decode env db req)
      as [-> | (oid & d & ids & Hf & -> & _)]; [done|].
    by rewrite (account_numbers_insert_same db oid d).
  - unfold user_create_handler.
    destruct (User_number_exists employeeNumber db) eqn:Hex; [done|].
    destruct (negb _); [done|].
    destruct (User db !! newId) eqn:Hfresh; [done|]. cbn [snd].
    rewrite (account_numbers_insert_fresh db newId _ Hfresh).
    apply NoDup_cons. split; [|done]. cbn.
    rewrite list_elem_of_In, <- User_number_exists_iff. by rewrite Hex.
  - unfold user_update_handler.
    destruct (new_ObjectId _) as [id|]; [|done].
    destruct (User db !! id) as [old|] eqn:Hold; [|done].
    destruct (negb (User_schema_ok _)); [done|]. cbn [snd].
    rewrite (account_numbers_insert_same db id old); [done..|].
    by destruct (negb _).
  - unfold user_permissions_handler.
    destruct (new_ObjectId _) as [id|]; [|done].
    destruct (User db !! id) as [old|] eqn:Hold; [|done].
    destruct (negb (User_schema_ok _)); [done|]. cbn [snd].
    by rewrite (account_numbers_insert_same db id old).
  - intros Hin. unfold user_create_handler.
    by rewrite (proj2 (User_number_exists_iff _ _) Hin).
Qed.

(** ** Validating a list of permission names *)




(** ** From login to an authenticated request *)

Lemma prefix_append (pat s : string) : String.prefix pat (String.append pat s) = true.
Proof.
  induction pat as [|a pat IH]; [by destruct s|].
  change (String.append (String a pat) s) with (String a (String.append pat s)).
  cbn [String.prefix]. by destruct (ascii_dec a a).
Qed.

Lemma substring_append (pat s : string) :
  String.substring (String.length pat)
    (String.length (String.append pat s) - String.length pat)
    (String.append pat s) = s.
Proof.
  induction pat as [|a pat IH].
  - change (String.append "" s) with s. cbn [String.length].
    by rewrite Nat.sub_0_r, substring_all.
  - change (String.append (String a pat) s) with (String a (String.append pat s)).
    cbn [String.length String.substring Nat.sub]. exact IH.
Qed.

Lemma replace_prefix (pat s : string) :
  replace pat "" (String.append pat s) = s.
Proof.
  rewrite replace_unfold, prefix_append, substring_append.
  by change (String.append "" s) with s.
Qed.

Lemma User_findOne_by_number_Some (n : string) (db : Store) id u :
  User_findOne_by_number n db = Some (id, u) ->
  User db !! id = Some u /\ doc_employeeNumber u = n.
Proof.
  unfold User_findOne_by_number. intros Hfind.
  apply find_some in Hfind as [Hin Heq]. cbn in Heq.
  apply String.eqb_eq in Heq. split; [|done].
  by apply elem_of_map_to_list, list_elem_of_In.
Qed.

(** What a successful login hands out and leaves behind. *)
Lemma login_handler_token
    jwt_encode comparePassword env employeeNumber password db res tok db1 :
  login_handler jwt_encode comparePassword env employeeNumber password db
  = ((res, Some tok), db1) ->
  exists id u u1 snapshot,
    User db !! id = Some u
    /\ doc_employeeNumber u = employeeNumber
    /\ comparePassword id password = true
    /\ User db1 !! id = Some u1
    /\ doc_employeeNumber u1 = employeeNumber
    /\ doc_role u1 = doc_role u
    /\ tok = jwt_encode
               (jwt_sign (clockTimestamp env)
                  (mkJwtPayload id employeeNumber (doc_role u) snapshot)
                  (secretOrKey env)).
Proof.
  unfold login_handler. intros Hlogin.
  destruct (User_findOne_by_number employeeNumber db) as [[id u]|] eqn:Hfind;
    [|discriminate].
  apply User_findOne_by_number_Some in Hfind as [Hu Hnum].
  destruct (comparePassword id password) eqn:Hpw; [|discriminate]. cbn in Hlogin.
  destruct (String.eqb (doc_role u) "admin").
  - unfold User_findByIdAndUpdate in Hlogin. rewrite Hu in Hlogin.
    injection Hlogin as _ <- <-.
    exists id, u, (update_set_permissions (fst <$> Permission_find_all db) u).
    eexists. split; [done|]. split; [done|]. split; [done|].
    split; [apply lookup_insert_eq|]. split; [done|]. split; [done|].
    by rewrite Hnum.
  - injection Hlogin as _ <- <-. exists id, u, u. eexists.
    split; [done|]. split; [done|]. split; [done|]. split; [done|].
    split; [done|]. split; [done|]. by rewrite Hnum.
Qed.

(** A token handed out by login authenticates its account: presented as
    [Bearer <token>] under the same secret, to a store whose account ids are
    ObjectIds, it gets through [auth] as the account that logged in while
    fewer than 86400 seconds have passed since issue, and is answered 401
    INVALID_TOKEN from then on. *)
Theorem login_token_authenticates
    jwt_encode jwt_decode comparePassword env0 env1
    number password db res tok db1 req :
  login_handler jwt_encode comparePassword env0 number password db
  = ((res, Some tok), db1) ->
  (forall t, jwt_encode t = tok -> jwt_decode tok = Some t) ->
  tok <> "" ->
  header_Authorization req = Some (String.append "Bearer " tok) ->
  secretOrKey env1 = secretOrKey env0 ->
  (forall id u, User db !! id = Some u -> new_ObjectId id = Some id) ->
  ((clockTimestamp env1 < clockTimestamp env0 + 86400)%Z ->
   exists u,
     identity_of (auth jwt_decode env1 db1 req) = Some u
     /\ employeeNumber u = number
     /\ (doc_employeeNumber <$> User db !! user_id u) = Some number
     /\ comparePassword (user_id u) password = true)
  /\ ((clockTimestamp env0 + 86400 <= clockTimestamp env1)%Z ->
      auth jwt_decode env1 db1 req
      = (Respond (json 401 "Invalid token" (Some "INVALID_TOKEN")), db1)).
Proof.
  intros Hlogin Hcodec Hne Hheader Hsecret Hwf.
  destruct (login_handler_token _ _ _ _ _ _ _ _ _ Hlogin)
    as (id & u & u1 & snapshot & Hu & Hnumu & Hpw & Hu1 & Hnum1 & Hrole & Htok).
  pose proof (Hcodec _ (eq_sym Htok)) as Hdec.
  assert (Hh : replace "Bearer " "" <$> header_Authorization req = Some tok).
  { rewrite Hheader. cbn [fmap option_fmap option_map]. by rewrite replace_prefix. }
  split.
  - intros Hfresh.
    assert (Hv : jwt_verify jwt_decode (clockTimestamp env1) tok
                   (secretOrKey env1) ["HS256"]
                 = inr (mkJwtPayload id number (doc_role u) snapshot)).
    { unfold jwt_verify. rewrite Hdec, Hsecret. cbn.
      rewrite String.eqb_refl. cbn.
      destruct (Z.leb_spec (clockTimestamp env0 + 86400) (clockTimestamp env1));
        [lia|done]. }
    pose proof (Hwf id u Hu) as Ho.
    destruct (decide (doc_role u1 = "admin")) as [Hr|Hr].
    + rewrite (auth_admin jwt_decode env1 db1 req tok _ id u1
                 Hh Hne Hv Ho Hu1 Hnum1 Hr).
      eexists. split; [reflexivity|]. cbn.
      split; [exact Hnum1|]. split; [by rewrite Hu; cbn; rewrite Hnumu|done].
    + rewrite (auth_non_admin jwt_decode env1 db1 req tok _ id u1
                 Hh Hne Hv Ho Hu1 Hnum1 Hr).
      eexists. split; [reflexivity|]. cbn.
      split; [exact Hnum1|]. split; [by rewrite Hu; cbn; rewrite Hnumu|done].
  - intros Hexp. unfold auth. rewrite Hh.
    destruct tok as [|c tok']; [done|].
    destruct (jwt_verify_expired jwt_decode (clockTimestamp env1)
                (String c tok') (secretOrKey env1) ["HS256"] _
                (clockTimestamp env0 + 86400)%Z Hdec eq_refl Hexp)
      as [err ->].
    reflexivity.
Qed.

(** POST /register, when it answers 201, stores an account with the role
    employee holding exactly the permissions of the employee baseline that
    the catalog has, and hands out a token. *)
Theorem register_grants_employee_baseline
    jwt_encode User_schema_ok env number firstName lastName newId db :
  let r := register_handler jwt_encode User_schema_ok env number firstName
                            lastName newId db in
  status r.1.1 = 201 ->
  is_Some r.1.2
  /\ (doc_role <$> User r.2 !! newId) = Some "employee"
  /\ exists names,
       granted_names r.2 newId = Some names
       /\ forall n, In n names <->
                    In n (ROLE_PERMISSIONS_of Employee)
                    /\ In n (catalog_names db).
Proof.
  cbn zeta. unfold register_handler.
  destruct (User_number_exists _ _); [discriminate|].
  destruct (negb _); [discriminate|].
  destruct (User db !! newId) eqn:Hfresh; [discriminate|]. intros _.
  split; [by eexists|]. unfold granted_names. cbn [snd fst User set_User].
  rewrite lookup_insert_eq. split; [done|].
  eexists. split; [reflexivity|]. intros n. cbn [doc_permissions].
  change (populate (set_User _ db) ?l) with (populate db l).
  rewrite granted_names_of_query. apply Permission_find_name_in_names.
Qed.

(** * The further properties on the sample deployment *)

Section OnSampleMore.

Lemma auth_keeps_grants_witness :
  exists d' extra,
    User (Sample.auth Sample.db (Sample.request "employee.jwt" "")).2
      !! Sample.account_id 7 = Some d'
    /\ doc_permissions d' = doc_permissions Sample.employee ++ extra.
Proof.
  apply (auth_keeps_grants Sample.jwt_decode Sample.env Sample.db
           (Sample.request "employee.jwt" "")
           (Sample.account_id 7) Sample.employee).
  - vm_compute. reflexivity.
  - vm_compute. discriminate.
Defined.

Lemma auth_non_admin_grants_required_witness :
  exists names,
    granted_names (Sample.auth Sample.db (Sample.request "legacy.jwt" "")).2
                  (Sample.account_id 8)
    = Some names
    /\ In "manage_users" names.
Proof.
  apply (auth_non_admin_grants_required Sample.jwt_decode Sample.env Sample.db
           (Sample.request "legacy.jwt" "") "legacy.jwt"
           (mkJwtPayload (Sample.account_id 8) "AC000008" "employee" None)
           (Sample.account_id 8) Sample.legacy
           eq_refl ltac:(discriminate) eq_refl eq_refl
           ltac:(vm_compute; reflexivity) eq_refl
           (Sample.permission_id 9) (mkPermissionDoc "manage_users" "" "" "")).
  - vm_compute. discriminate.
  - vm_compute. reflexivity.
  - vm_compute. tauto.
Defined.

Lemma auth_adminOnly_by_stored_role_witness :
  admits (run [auth SampleMore.jwt_decode Sample.env; adminOnly] Sample.db
            (Sample.request "promoted.jwt" ""))
  = String.eqb (doc_role Sample.employee) "admin".
Proof.
  apply (auth_adminOnly_by_stored_role SampleMore.jwt_decode Sample.env Sample.db
           (Sample.request "promoted.jwt" "") "promoted.jwt"
           (mkJwtPayload (Sample.account_id 7) "AC000007" "admin" None)
           (Sample.account_id 7) Sample.employee).
  - reflexivity.
  - discriminate.
  - reflexivity.
  - reflexivity.
  - vm_compute. reflexivity.
  - reflexivity.
Defined.

Lemma auth_hasAnyPermission_admin_witness :
  admits (run [Sample.auth; hasAnyPermission []] Sample.db
            (Sample.request "admin.jwt" ""))
  = true.
Proof.
  apply (auth_hasAnyPermission_admin Sample.jwt_decode Sample.env Sample.db
           (Sample.request "admin.jwt" "") "admin.jwt"
           (mkJwtPayload (Sample.account_id 1) "AC000001" "admin" None)
           (Sample.account_id 1) Sample.admin).
  - reflexivity.
  - discriminate.
  - reflexivity.
  - reflexivity.
  - vm_compute. reflexivity.
  - reflexivity.
  - reflexivity.
Defined.

Lemma auth_hasPermission_admin_witness :
  admits (run [Sample.auth; hasPermission "admin"] Sample.db
            (Sample.request "admin.jwt" ""))
  = true
  <-> In "admin" (catalog_names Sample.db).
Proof.
  apply (auth_hasPermission_admin Sample.jwt_decode Sample.env Sample.db
           (Sample.request "admin.jwt" "") "admin.jwt"
           (mkJwtPayload (Sample.account_id 1) "AC000001" "admin" None)
           (Sample.account_id 1) Sample.admin).
  - reflexivity.
  - discriminate.
  - reflexivity.
  - reflexivity.
  - vm_compute. reflexivity.
  - reflexivity.
  - reflexivity.
Defined.

Lemma auth_non_admin_covers_baseline_witness :
  exists names,
    granted_names (Sample.auth Sample.db (Sample.request "legacy.jwt" "")).2
                  (Sample.account_id 8)
    = Some names
    /\ In "edit_own_items" names.
Proof.
  apply (auth_non_admin_covers_baseline Sample.jwt_decode Sample.env Sample.db
           (Sample.request "legacy.jwt" "") "legacy.jwt"
           (mkJwtPayload (Sample.account_id 8) "AC000008" "employee" None)
           (Sample.account_id 8) Sample.legacy "edit_own_items").
  - reflexivity.
  - discriminate.
  - reflexivity.
  - reflexivity.
  - vm_compute. reflexivity.
  - reflexivity.
  - vm_compute. discriminate.
  - vm_compute. tauto.
  - vm_compute. tauto.
Defined.

Lemma auth_ignores_token_claims_witness :
  (auth SampleMore.jwt_decode Sample.env Sample.db (Sample.request "employee.jwt" "")).2
  = (auth SampleMore.jwt_decode Sample.env Sample.db (Sample.request "promoted.jwt" "")).2
  /\ identity_of (auth SampleMore.jwt_decode Sample.env Sample.db
                       (Sample.request "employee.jwt" ""))
     = identity_of (auth SampleMore.jwt_decode Sample.env Sample.db
                         (Sample.request "promoted.jwt" "")).
Proof.
  apply (auth_ignores_token_claims SampleMore.jwt_decode Sample.env Sample.db
           (Sample.request "employee.jwt" "") (Sample.request "promoted.jwt" "")
           "employee.jwt" "promoted.jwt"
           (mkJwtPayload (Sample.account_id 7) "AC000007" "employee" None)
           (mkJwtPayload (Sample.account_id 7) "AC000007" "admin" None)).
  - reflexivity.
  - discriminate.
  - reflexivity.
  - reflexivity.
  - discriminate.
  - reflexivity.
  - reflexivity.
  - reflexivity.
Defined.

Lemma hasAnyPermission_as_hasPermission_witness :
  admits (hasAnyPermission ["edit_all_items"; "edit_own_items"] Sample.db
            (SampleMore.as_user SampleMore.supervisor ""))
  = existsb (fun n => admits (hasPermission n Sample.db
                                (SampleMore.as_user SampleMore.supervisor "")))
            ["edit_all_items"; "edit_own_items"].
Proof.
  apply (hasAnyPermission_as_hasPermission ["edit_all_items"; "edit_own_items"]
           Sample.db (SampleMore.as_user SampleMore.supervisor "")).
  intros u [= <-]. vm_compute. discriminate.
Defined.

End OnSampleMore.

Section OnSampleRoutes.


(** The sample admin asks to delete the stored delivered item. *)
Lemma delivered_delete_effect_witness :
  (delivered_delete Sample.jwt_decode Sample.env Sample.db
     (Sample.request "admin.jwt" (Sample.item_id 1))).1
  = json 500 "Error al eliminar el item" None.
Proof.
  destruct (delivered_delete_effect Sample.jwt_decode Sample.env Sample.db
              (Sample.request "admin.jwt" (Sample.item_id 1)))
    as (_ & _ & _ & _ & _ & H).
  apply (H (Sample.item_id 1)).
  - vm_compute. reflexivity.
  - vm_compute. reflexivity.
  - exists (mkDeliveredItemDoc "AC101" "umbrella" (Sample.account_id 8) false).
    vm_compute. reflexivity.
Defined.

(** C7 at the sample admin deleting [manage_users]. *)
Lemma permission_delete_no_dangling_witness :
  let req := Sample.request "admin.jwt" (Sample.permission_id 9) in
  let r := permission_delete Sample.jwt_decode Sample.env Sample.db req in
  status r.1 = 200 /\
  exists id,
    new_ObjectId (params_id req) = Some id
    /\ is_Some (Permission Sample.db !! id)
    /\ Permission r.2 = delete id (Permission Sample.db)
    /\ (forall uid u, User r.2 !! uid = Some u -> id ∉ doc_permissions u)
    /\ (forall uid u, User Sample.db !! uid = Some u ->
         exists u', User r.2 !! uid = Some u'
                    /\ (id ∉ doc_permissions u')
                    /\ without_permissions u' = without_permissions u)
    /\ (forall uid,
         User r.2 !! uid
         = (fun u => set_permissions
                       (List.filter (fun x => negb (String.eqb x id))
                                    (doc_permissions u)) u)
           <$> User (auth Sample.jwt_decode Sample.env Sample.db req).2 !! uid)
    /\ DeliveredItem r.2 = DeliveredItem Sample.db
    /\ LostItem r.2 = LostItem Sample.db.
Proof.
  intros req r. split.
  - vm_compute. reflexivity.
  - apply (permission_delete_no_dangling Sample.jwt_decode Sample.env
             Sample.db req r.1 r.2).
    + symmetry. apply surjective_pairing.
    + vm_compute. reflexivity.
Defined.

Lemma permission_create_names_unique_witness :
  let req := SampleMore.as_user SampleMore.admin_identity "" in
  NoDup (catalog_names
           (permission_create_handler SampleMore.schema_ok
              SampleMore.new_permission (Sample.permission_id 14)
              Sample.db req).2)
  /\ (In (name SampleMore.new_permission) (catalog_names Sample.db) ->
      forall requester u,
        user req = Some requester ->
        User Sample.db !! user_id requester = Some u ->
        doc_role u = "admin" ->
        permission_create_handler SampleMore.schema_ok
          SampleMore.new_permission (Sample.permission_id 14) Sample.db req
        = (json 400 "Permission already exists" None, Sample.db)).
Proof.
  intros req.
  apply (permission_create_names_unique SampleMore.schema_ok
           SampleMore.new_permission (Sample.permission_id 14) Sample.db req).
  apply (bool_decide_unpack _). vm_compute. reflexivity.
Defined.

Lemma permission_routes_admin_only_witness :
  exists oid d,
    User Sample.db !! oid = Some d /\ doc_role d = "admin"
    /\ (user_id <$> identity_of (Sample.auth Sample.db
                                   (Sample.request "admin.jwt"
                                      (Sample.permission_id 9))))
       = Some oid.
Proof.
  apply (permission_routes_admin_only Sample.jwt_decode Sample.env
           SampleMore.schema_ok SampleMore.new_permission
           (Sample.permission_id 14) Sample.db
           (Sample.request "admin.jwt" (Sample.permission_id 9))).
  left. intros Heq.
  apply (f_equal (fun m : gmap string PermissionDoc =>
                    m !! Sample.permission_id 14)) in Heq.
  vm_compute in Heq. discriminate.
Defined.

End OnSampleRoutes.

Section OnSampleAccounts.

Lemma user_create_grants_baseline_witness :
  let r := user_create_handler SampleMore.schema_ok "AC000010" "Nia" "New"
             Supervisor (Sample.account_id 10) Sample.db
             (SampleMore.as_user SampleMore.admin_identity "") in
  User Sample.db !! Sample.account_id 10 = None
  /\ (doc_role <$> User r.2 !! Sample.account_id 10)
     = Some (role_name Supervisor)
  /\ exists names,
       granted_names r.2 (Sample.account_id 10) = Some names
       /\ forall n, In n names <->
                    In n (ROLE_PERMISSIONS_of Supervisor)
                    /\ In n (catalog_names Sample.db).
Proof.
  apply (user_create_grants_baseline SampleMore.schema_ok "AC000010" "Nia" "New"
           Supervisor (Sample.account_id 10) Sample.db
           (SampleMore.as_user SampleMore.admin_identity "")).
  vm_compute. reflexivity.
Defined.


Lemma user_permissions_stored_witness :
  let req := SampleMore.as_user SampleMore.admin_identity (Sample.account_id 7) in
  let r := user_permissions_handler SampleMore.schema_ok
             ["view_dashboard"; "no_such_permission"] Sample.db req in
  exists names,
    granted_names r.2 (Sample.account_id 7) = Some names
    /\ forall n,
         In n names <->
         In n (catalog_names Sample.db)
         /\ (In n ["view_dashboard"; "no_such_permission"]
             \/ (doc_role Sample.employee = "admin" /\ In n ADMIN_PERMISSIONS)).
Proof.
  intros req.
  apply (user_permissions_stored SampleMore.schema_ok
           ["view_dashboard"; "no_such_permission"] Sample.db req
           (Sample.account_id 7) Sample.employee).
  - reflexivity.
  - vm_compute. reflexivity.
  - vm_compute. reflexivity.
Defined.

Lemma user_routes_keep_numbers_unique_witness :
  let req := Sample.request "legacy.jwt" (Sample.account_id 7) in
  NoDup (account_numbers (Sample.auth Sample.db req).2)
  /\ NoDup (account_numbers
              (user_create_handler SampleMore.schema_ok "AC000010" "Nia" "New"
                 Employee (Sample.account_id 10) Sample.db req).2)
  /\ NoDup (account_numbers
              (user_update_handler SampleMore.schema_ok "Nia" "New" Employee
                                   Sample.db req).2)
  /\ NoDup (account_numbers
              (user_permissions_handler SampleMore.schema_ok ["view_dashboard"]
                                        Sample.db req).2)
  /\ (In "AC000010" (account_numbers Sample.db) ->
      user_create_handler SampleMore.schema_ok "AC000010" "Nia" "New"
                          Employee (Sample.account_id 10) Sample.db req
      = (json 400 "Employee number already exists" None, Sample.db)).
Proof.
  intros req.
  apply (user_routes_keep_numbers_unique Sample.jwt_decode Sample.env
           SampleMore.schema_ok Sample.db req "AC000010" "Nia" "New" Employee
           (Sample.account_id 10) ["view_dashboard"]).
  apply (bool_decide_unpack _). vm_compute. reflexivity.
Defined.


Lemma register_grants_employee_baseline_witness :
  let r := register_handler SampleMore.jwt_encode SampleMore.schema_ok
             Sample.env "AC000010" "Nia" "New" (Sample.account_id 10)
             Sample.db in
  is_Some r.1.2
  /\ (doc_role <$> User r.2 !! Sample.account_id 10) = Some "employee"
  /\ exists names,
       granted_names r.2 (Sample.account_id 10) = Some names
       /\ forall n, In n names <->
                    In n (ROLE_PERMISSIONS_of Employee)
                    /\ In n (catalog_names Sample.db).
Proof.
  apply (register_grants_employee_baseline SampleMore.jwt_encode
           SampleMore.schema_ok Sample.env "AC000010" "Nia" "New"
           (Sample.account_id 10) Sample.db).
  vm_compute. reflexivity.
Defined.

Lemma login_token_authenticates_witness :
  let later := mkEnv (Some "s3cret") 5000 in
  let req := Sample.request "session.jwt" "" in
  let db1 := (login_handler SampleMore.jwt_encode SampleMore.comparePassword
                Sample.env "AC000007" "correct horse" Sample.db).2 in
  ((clockTimestamp later < clockTimestamp Sample.env + 86400)%Z ->
   exists u,
     identity_of (auth SampleMore.jwt_decode_session later db1 req) = Some u
     /\ employeeNumber u = "AC000007"
     /\ (doc_employeeNumber <$> User Sample.db !! user_id u) = Some "AC000007"
     /\ SampleMore.comparePassword (user_id u) "correct horse" = true)
  /\ ((clockTimestamp Sample.env + 86400 <= clockTimestamp later)%Z ->
      auth SampleMore.jwt_decode_session later db1 req
      = (Respond (json 401 "Invalid token" (Some "INVALID_TOKEN")), db1)).
Proof.
  intros later req db1.
  apply (login_token_authenticates SampleMore.jwt_encode
           SampleMore.jwt_decode_session SampleMore.comparePassword
           Sample.env later "AC000007" "correct horse" Sample.db
           (json 200 "" None) "session.jwt" db1 req).
  - vm_compute. reflexivity.
  - intros t Ht. unfold SampleMore.jwt_encode in Ht.
    case_bool_decide as Heq; [by subst|discriminate].
  - discriminate.
  - reflexivity.
  - reflexivity.
  - intros id u Hu. unfold Sample.db in Hu.
    cbn [User list_to_map foldr uncurry fst snd] in Hu.
    repeat (apply lookup_insert_Some in Hu as [[<- _]|[_ Hu]];
            [vm_compute; reflexivity|]).
    by rewrite lookup_empty in Hu.
Defined.

End OnSampleAccounts.

(** * Seeding the catalog *)

Lemma catalog_names_In (db : Store) (n : string) :
  In n (catalog_names db)
  <-> exists id d, Permission db !! id = Some d /\ name d = n.
Proof.
  unfold catalog_names. rewrite <- list_elem_of_In, list_elem_of_fmap. split.
  - intros ([id d] & -> & He). apply elem_of_map_to_list in He. by exists id, d.
  - intros (id & d & Hd & <-). exists (id, d).
    split; [done|by apply elem_of_map_to_list].
Qed.

Lemma catalog_names_insert_same (db : Store) id d d' :
  Permission db !! id = Some d ->
  name d' = name d ->
  catalog_names (set_Permission (insert id d') db) ≡ₚ catalog_names db.
Proof.
  intros Hd Hname. unfold catalog_names. cbn.
  rewrite <- (insert_delete_eq (Permission db) id d') at 1.
  rewrite <- (insert_delete_id (Permission db) id d Hd) at 2.
  rewrite !map_to_list_insert by apply lookup_delete_eq.
  cbn. by rewrite Hname.
Qed.

Lemma Permission_findOne_name_Some (n : string) (db : Store) id d :
  Permission_findOne_name n db = Some (id, d) ->
  Permission db !! id = Some d /\ name d = n.
Proof.
  unfold Permission_findOne_name. intros Hfind.
  apply find_some in Hfind as [Hin Heq]. cbn in Heq.
  apply String.eqb_eq in Heq. split; [|done].
  by apply elem_of_map_to_list, list_elem_of_In.
Qed.

Lemma Permission_findOne_name_None (n : string) (db : Store) :
  Permission_findOne_name n db = None -> ~ In n (catalog_names db).
Proof.
  unfold Permission_findOne_name. intros Hfind Hin.
  apply catalog_names_In in Hin as (id & d & Hd & Hname).
  apply elem_of_map_to_list, list_elem_of_In in Hd.
  pose proof (find_none _ _ Hfind _ Hd) as Hne. cbn in Hne.
  rewrite Hname, String.eqb_refl in Hne. discriminate.
Qed.

(** With names unique, a name picks its permission. *)
Lemma catalog_names_unique (db : Store) id1 d1 id2 d2 :
  NoDup (catalog_names db) ->
  Permission db !! id1 = Some d1 -> Permission db !! id2 = Some d2 ->
  name d1 = name d2 -> id1 = id2 /\ d1 = d2.
Proof.
  unfold catalog_names. intros Hnodup H1 H2 Hname.
  apply elem_of_map_to_list in H1, H2.
  assert (Hinj : forall (l : list (ObjectId * PermissionDoc)) x y,
            NoDup ((fun e => name e.2) <$> l) -> x ∈ l -> y ∈ l ->
            name x.2 = name y.2 -> x = y).
  { clear. induction l as [|a l IH]; intros x y Hnd Hx Hy Hxy;
      [by apply elem_of_nil in Hx|].
    cbn in Hnd. apply NoDup_cons in Hnd as [Ha Hnd].
    apply elem_of_cons in Hx as [->|Hx]; apply elem_of_cons in Hy as [->|Hy].
    - done.
    - exfalso. apply Ha. rewrite Hxy. apply list_elem_of_fmap. by exists y.
    - exfalso. apply Ha. rewrite <- Hxy. apply list_elem_of_fmap. by exists x.
    - by apply IH. }
  pose proof (Hinj _ _ _ Hnodup H1 H2 Hname) as Heq. by injection Heq.
Qed.

Section SeedingProperties.
Variable newObjectId : gmap ObjectId PermissionDoc -> ObjectId.
Variable Permission_schema_ok : PermissionDoc -> bool.

(** What the first loop keeps and adds, however far it gets. *)
Lemma create_or_describe_keeps (todo : list PermissionDoc) db db' ok :
  create_or_describe newObjectId Permission_schema_ok todo db = (db', ok) ->
  User db' = User db
  /\ (NoDup (catalog_names db) -> NoDup (catalog_names db'))
  /\ (forall id d, Permission db !! id = Some d ->
        exists d', Permission db' !! id = Some d' /\ name d' = name d
                   /\ (~ In (name d) (name <$> todo) -> d' = d))
  /\ (forall n, In n (catalog_names db') ->
        In n (catalog_names db) \/ In n (name <$> todo))
  /\ (ok = true -> forall n, In n (name <$> todo) -> In n (catalog_names db')).
Proof.
  revert db. induction todo as [|p rest IH]; intros db Hrun; cbn in Hrun.
  - injection Hrun as <- <-. repeat split; eauto. by intros _ n [].
  - destruct (Permission_findOne_name (name p) db) as [[id e]|] eqn:Hfind.
    + apply Permission_findOne_name_Some in Hfind as [He Hname].
      assert (Hstep : exists e', name e' = name e /\
                create_or_describe newObjectId Permission_schema_ok rest
                  (set_Permission (insert id e') db)
                = (db', ok)).
      { destruct (negb _).
        - by exists (set_description (description p) e).
        - exists e. split; [done|].
          replace (set_Permission (insert id e) db) with db; [done|].
          destruct db. unfold set_Permission. cbn in *. f_equal.
          by rewrite insert_id. }
      clear Hrun. destruct Hstep as (e' & He' & Hrun).
      destruct (IH _ Hrun) as (HU & HN & HK & HA & HO).
      pose proof (catalog_names_insert_same db id e e' He He') as Hperm.
      repeat split.
      * exact HU.
      * intros Hnd. apply HN. by rewrite Hperm.
      * intros i d Hd. destruct (decide (id = i)) as [<-|Hne].
        -- rewrite He in Hd. injection Hd as <-.
           destruct (HK id e') as (d' & Hd' & Hn' & _);
             [apply lookup_insert_eq|].
           exists d'. split; [done|]. split; [congruence|].
           intros Hnot. exfalso. apply Hnot. cbn. left. congruence.
        -- destruct (HK i d) as (d' & Hd' & Hn' & Hsame);
             [cbn; by rewrite lookup_insert_ne|].
           exists d'. split; [done|]. split; [done|].
           intros Hnot. apply Hsame. intros Hin. apply Hnot. by right.
      * intros n Hn. apply HA in Hn as [Hn|Hn]; [|right; by right].
        left. rewrite <- list_elem_of_In in Hn |- *. by rewrite <- Hperm.
      * intros Hok n [<-|Hn]; [|by apply HO].
        destruct (HK id e') as (d' & Hd' & Hn' & _); [apply lookup_insert_eq|].
        apply catalog_names_In. exists id, d'. split; [done|]. congruence.
    + apply Permission_findOne_name_None in Hfind.
      destruct (negb (Permission_schema_ok p)).
      { injection Hrun as <- <-. repeat split; eauto. discriminate. }
      destruct (Permission db !! newObjectId (Permission db)) eqn:Hfresh.
      { injection Hrun as <- <-. repeat split; eauto. discriminate. }
      destruct (IH _ Hrun) as (HU & HN & HK & HA & HO).
      pose proof (catalog_names_insert db _ p Hfresh) as Hperm.
      repeat split.
      * exact HU.
      * intros Hnd. apply HN. rewrite Hperm. apply NoDup_cons.
        split; [by rewrite list_elem_of_In|done].
      * intros i d Hd.
        assert (Hne : newObjectId (Permission db) <> i) by congruence.
        destruct (HK i d) as (d' & Hd' & Hn' & Hsame);
          [cbn; by rewrite lookup_insert_ne|].
        exists d'. split; [done|]. split; [done|].
        intros Hnot. apply Hsame. intros Hin. apply Hnot. by right.
      * intros n Hn. apply HA in Hn as [Hn|Hn]; [|right; by right].
        rewrite <- list_elem_of_In, Hperm, list_elem_of_In in Hn.
        destruct Hn as [<-|Hn]; [right; by left|by left].
      * intros Hok n [<-|Hn]; [|by apply HO].
        destruct (HK (newObjectId (Permission db)) p) as (d' & Hd' & Hn' & _);
          [apply lookup_insert_eq|].
        apply catalog_names_In. by eexists _, d'.
Qed.

End SeedingProperties.

Lemma Store_eq (a b : Store) :
  User a = User b -> Permission a = Permission b ->
  DeliveredItem a = DeliveredItem b -> LostItem a = LostItem b -> a = b.
Proof. destruct a, b. cbn. by intros -> -> -> ->. Qed.

Lemma wanted_name_In (wanted : list PermissionDoc) (d : PermissionDoc) :
  wanted_name wanted d = true <-> In (name d) (name <$> wanted).
Proof.
  unfold wanted_name. rewrite existsb_exists, <- list_elem_of_In, list_elem_of_fmap.
  split.
  - intros (p & Hp & Heq). apply String.eqb_eq in Heq.
    exists p. split; [done|by apply list_elem_of_In].
  - intros (p & Hn & Hp). exists p.
    split; [by apply list_elem_of_In|]. rewrite Hn. apply String.eqb_refl.
Qed.

Lemma remove_deprecated_fold (wanted : list PermissionDoc)
    (l : list (ObjectId * PermissionDoc)) (db : Store) :
  let db' :=
    foldl (fun db e =>
             if negb (existsb (fun p => String.eqb (name p) (name e.2)) wanted)
             then set_Permission (delete e.1) db else db) db l in
  User db' = User db /\ DeliveredItem db' = DeliveredItem db
  /\ LostItem db' = LostItem db
  /\ forall id,
       Permission db' !! id
       = if existsb (fun e : ObjectId * PermissionDoc =>
                       String.eqb e.1 id && negb (wanted_name wanted e.2)) l
         then None else Permission db !! id.
Proof.
  cbn zeta. revert db. induction l as [|e l IH]; intros db; [done|].
  cbn [foldl existsb].
  fold (wanted_name wanted e.2).
  destruct (wanted_name wanted e.2) eqn:Hw; cbn [negb].
  - destruct (IH db) as (HU & HD & HL & HP). repeat split; [done..|].
    intros id. rewrite HP. by rewrite andb_false_r.
  - destruct (IH (set_Permission (delete e.1) db)) as (HU & HD & HL & HP).
    repeat split; [done..|]. intros id. rewrite HP. cbn.
    rewrite andb_true_r.
    destruct (String.eqb_spec e.1 id) as [->|Hne]; cbn.
    + rewrite lookup_delete_eq. by destruct (existsb _ _).
    + by rewrite lookup_delete_ne.
Qed.

(** The second loop keeps exactly the permissions whose name is wanted. *)
Lemma remove_deprecated_lookup (wanted : list PermissionDoc) (db : Store) :
  User (remove_deprecated wanted db) = User db
  /\ DeliveredItem (remove_deprecated wanted db) = DeliveredItem db
  /\ LostItem (remove_deprecated wanted db) = LostItem db
  /\ forall id,
       Permission (remove_deprecated wanted db) !! id
       = match Permission db !! id with
         | Some d => if wanted_name wanted d then Some d else None
         | None => None
         end.
Proof.
  unfold remove_deprecated.
  destruct (remove_deprecated_fold wanted (map_to_list (Permission db)) db)
    as (HU & HD & HL & HP).
  repeat split; [done..|]. intros id. rewrite HP.
  destruct (existsb _ _) eqn:Hex.
  - apply existsb_exists in Hex as ([i d] & Hin & Hcond). cbn in Hcond.
    apply andb_true_iff in Hcond as [Hid Hw]. apply String.eqb_eq in Hid.
    subst i. apply list_elem_of_In, elem_of_map_to_list in Hin.
    rewrite Hin. apply negb_true_iff in Hw. by rewrite Hw.
  - destruct (Permission db !! id) as [d|] eqn:Hd; [|done].
    destruct (wanted_name wanted d) eqn:Hw; [done|]. exfalso.
    apply not_true_iff_false in Hex. apply Hex, existsb_exists.
    exists (id, d). split; [by apply list_elem_of_In, elem_of_map_to_list|].
    cbn. by rewrite String.eqb_refl, Hw.
Qed.

Lemma submseteq_NoDup {A} (l1 l2 : list A) :
  l1 ⊆+ l2 -> NoDup l2 -> NoDup l1.
Proof.
  intros [k Hk]%submseteq_Permutation Hnd. rewrite Hk in Hnd.
  by apply NoDup_app in Hnd as [? _].
Qed.

Section SeedingResults.
Variable newObjectId : gmap ObjectId PermissionDoc -> ObjectId.
Variable Permission_schema_ok : PermissionDoc -> bool.

(** When [initializePermissions] runs to its end, the catalog holds the
    names of [PERMISSIONS] and no other; a permission stored before under
    one of those names is still stored under the same [_id] and name, so
    grants that point to it still do; a permission stored under any other
    name is gone; and no account was touched, so grants that pointed to a
    removed permission now point to nothing. *)
Theorem initializePermissions_catalog db db' :
  initializePermissions newObjectId Permission_schema_ok db = (db', true) ->
  User db' = User db
  /\ (forall n, In n (catalog_names db') <-> In n (name <$> PERMISSIONS))
  /\ (forall id d, Permission db !! id = Some d ->
        if wanted_name PERMISSIONS d
        then exists d', Permission db' !! id = Some d' /\ name d' = name d
        else Permission db' !! id = None)
  /\ (NoDup (catalog_names db) -> catalog_names db' ≡ₚ name <$> PERMISSIONS).
Proof.
  unfold initializePermissions.
  destruct (create_or_describe _ _ PERMISSIONS db) as [db1 [|]] eqn:Hloop;
    [|discriminate].
  intros [= <-].
  destruct (create_or_describe_keeps _ _ _ _ _ _ Hloop)
    as (HU & HN & HK & HA & HO).
  destruct (remove_deprecated_lookup PERMISSIONS db1) as (HU' & _ & _ & HP).
  assert (Hnames : forall n, In n (catalog_names (remove_deprecated PERMISSIONS db1))
                             <-> In n (name <$> PERMISSIONS)).
  { intros n. rewrite catalog_names_In. split.
    - intros (id & d & Hd & <-). rewrite HP in Hd.
      destruct (Permission db1 !! id) as [d1|]; [|discriminate].
      destruct (wanted_name PERMISSIONS d1) eqn:Hw; [|discriminate].
      injection Hd as <-. by apply wanted_name_In.
    - intros Hn. pose proof (HO eq_refl n Hn) as Hin.
      apply catalog_names_In in Hin as (id & d & Hd & <-).
      exists id, d. split; [|done]. rewrite HP, Hd.
      by rewrite (proj2 (wanted_name_In PERMISSIONS d) Hn). }
  repeat split.
  - congruence.
  - by apply Hnames.
  - by apply Hnames.
  - intros id d Hd. destruct (HK id d Hd) as (d' & Hd' & Hn' & _).
    rewrite HP, Hd'.
    assert (Hw : wanted_name PERMISSIONS d' = wanted_name PERMISSIONS d)
      by (unfold wanted_name; by rewrite Hn').
    rewrite Hw. destruct (wanted_name PERMISSIONS d); [by exists d'|done].
  - intros Hnd. apply NoDup_Permutation.
    + assert (Hsub : Permission (remove_deprecated PERMISSIONS db1)
                     ⊆ Permission db1).
      { apply map_subseteq_spec. intros id d. rewrite HP.
        destruct (Permission db1 !! id) as [d1|]; [|discriminate].
        by destruct (wanted_name PERMISSIONS d1). }
      unfold catalog_names.
      eapply submseteq_NoDup;
        [apply fmap_submseteq, map_to_list_submseteq, Hsub|].
      by apply HN.
    + apply (bool_decide_unpack _). vm_compute. reflexivity.
    + intros n. rewrite !list_elem_of_In. apply Hnames.
Qed.

End SeedingResults.

Section SeedingAgain.
Variable newObjectId : gmap ObjectId PermissionDoc -> ObjectId.
Variable Permission_schema_ok : PermissionDoc -> bool.

(** After the first loop has run to its end over distinct names, each
    permission to have is stored under its name with its description. *)
Lemma create_or_describe_described (todo : list PermissionDoc) db db' :
  NoDup (name <$> todo) ->
  NoDup (catalog_names db) ->
  create_or_describe newObjectId Permission_schema_ok todo db = (db', true) ->
  forall p, In p todo ->
    exists id d, Permission db' !! id = Some d /\ name d = name p
                 /\ description d = description p.
Proof.
  revert db. induction todo as [|p rest IH]; intros db Htodo Hnd Hrun q Hq;
    [done|].
  cbn in Htodo. apply NoDup_cons in Htodo as [Hp Hrest].
  assert (Hstep : exists id e db1,
            Permission db1 !! id = Some e /\ name e = name p
            /\ description e = description p
            /\ NoDup (catalog_names db1)
            /\ create_or_describe newObjectId Permission_schema_ok rest db1
               = (db', true)).
  { cbn in Hrun.
    destruct (Permission_findOne_name (name p) db) as [[id e]|] eqn:Hfind.
    - apply Permission_findOne_name_Some in Hfind as [He Hname].
      destruct (String.eqb_spec (description e) (description p)) as [Hd|Hd];
        cbn [negb] in Hrun.
      + by exists id, e, db.
      + exists id, (set_description (description p) e),
               (set_Permission
                  (insert id (set_description (description p) e)) db).
        split; [apply lookup_insert_eq|]. repeat split; [done|..|exact Hrun].
        by rewrite (catalog_names_insert_same db id e).
    - apply Permission_findOne_name_None in Hfind.
      destruct (negb (Permission_schema_ok p)); [discriminate|].
      destruct (Permission db !! newObjectId (Permission db)) eqn:Hfresh;
        [discriminate|].
      exists (newObjectId (Permission db)), p,
             (set_Permission (insert (newObjectId (Permission db)) p) db).
      split; [apply lookup_insert_eq|]. repeat split; [..|exact Hrun].
      rewrite (catalog_names_insert db _ p Hfresh). apply NoDup_cons.
      split; [by rewrite list_elem_of_In|done]. }
  destruct Hstep as (id & e & db1 & He & Hname & Hdesc & Hnd1 & Hrun1).
  destruct Hq as [<-|Hq]; [|by eapply (IH db1)].
  destruct (create_or_describe_keeps _ _ _ _ _ _ Hrun1) as (_ & _ & HK & _).
  destruct (HK id e He) as (d' & Hd' & _ & Hsame).
  exists id, e. rewrite Hd', Hsame; [done|].
  by rewrite Hname, <- list_elem_of_In.
Qed.

(** Over a catalog that already holds each permission to have under its
    name with its description, names being unique, the first loop changes
    nothing. *)
Lemma create_or_describe_fixed (todo : list PermissionDoc) db :
  NoDup (catalog_names db) ->
  (forall p, In p todo ->
     exists id d, Permission db !! id = Some d /\ name d = name p
                  /\ description d = description p) ->
  create_or_describe newObjectId Permission_schema_ok todo db = (db, true).
Proof.
  intros Hnd. induction todo as [|p rest IH]; intros Hall; [done|]. cbn.
  destruct (Hall p (or_introl eq_refl)) as (id & d & Hd & Hname & Hdesc).
  destruct (Permission_findOne_name (name p) db) as [[id' e]|] eqn:Hfind.
  - apply Permission_findOne_name_Some in Hfind as [He Hname'].
    destruct (catalog_names_unique db id' e id d Hnd He Hd) as [-> ->];
      [congruence|].
    rewrite Hdesc, String.eqb_refl. cbn. apply IH. intros q Hq. apply Hall.
    by right.
  - apply Permission_findOne_name_None in Hfind. exfalso. apply Hfind.
    apply catalog_names_In. by exists id, d.
Qed.

Lemma remove_deprecated_fixed (wanted : list PermissionDoc) db :
  (forall id d, Permission db !! id = Some d -> wanted_name wanted d = true) ->
  remove_deprecated wanted db = db.
Proof.
  intros Hall.
  destruct (remove_deprecated_lookup wanted db) as (HU & HD & HL & HP).
  apply Store_eq; [done| |done..].
  apply map_eq. intros id. rewrite HP.
  destruct (Permission db !! id) as [d|] eqn:Hd; [|done].
  by rewrite (Hall id d Hd).
Qed.

(** Seeding twice is seeding once: over a catalog with unique names, a run
    of [initializePermissions] that reaches its end leaves a store that a
    second run reaches its end on without changing anything. *)
Theorem initializePermissions_idempotent db db' :
  NoDup (catalog_names db) ->
  initializePermissions newObjectId Permission_schema_ok db = (db', true) ->
  initializePermissions newObjectId Permission_schema_ok db' = (db', true).
Proof.
  intros Hnd. unfold initializePermissions at 1.
  destruct (create_or_describe _ _ PERMISSIONS db) as [db1 [|]] eqn:Hloop;
    [|discriminate].
  intros [= <-].
  assert (Hseed : NoDup (name <$> PERMISSIONS))
    by (apply (bool_decide_unpack _); vm_compute; reflexivity).
  destruct (create_or_describe_keeps _ _ _ _ _ _ Hloop) as (_ & HN & _).
  pose proof (create_or_describe_described _ _ _ Hseed Hnd Hloop) as Hdesc.
  destruct (remove_deprecated_lookup PERMISSIONS db1) as (_ & _ & _ & HP).
  set (db2 := remove_deprecated PERMISSIONS db1) in *.
  assert (Hsub : Permission db2 ⊆ Permission db1).
  { apply map_subseteq_spec. intros id d. rewrite HP.
    destruct (Permission db1 !! id) as [d1|]; [|discriminate].
    by destruct (wanted_name PERMISSIONS d1). }
  assert (Hnd2 : NoDup (catalog_names db2)).
  { unfold catalog_names.
    eapply submseteq_NoDup;
      [apply fmap_submseteq, map_to_list_submseteq, Hsub|].
    by apply HN. }
  assert (Hwanted : forall id d, Permission db2 !! id = Some d ->
                                 wanted_name PERMISSIONS d = true).
  { intros id d. rewrite HP.
    destruct (Permission db1 !! id) as [d1|]; [|discriminate].
    destruct (wanted_name PERMISSIONS d1) eqn:Hw; [|discriminate].
    by intros [= <-]. }
  unfold initializePermissions.
  rewrite create_or_describe_fixed; [|done|].
  - by rewrite remove_deprecated_fixed.
  - intros p Hp. destruct (Hdesc p Hp) as (id & d & Hd & Hname & Hdescr).
    exists id, d. split; [|done]. rewrite HP, Hd.
    assert (Hw : wanted_name PERMISSIONS d = true).
    { apply wanted_name_In. rewrite Hname.
      apply list_elem_of_In, list_elem_of_fmap. exists p.
      split; [done|by apply list_elem_of_In]. }
    by rewrite Hw.
Qed.

End SeedingAgain.

Section OnSampleSeed.

Lemma initializePermissions_catalog_witness :
  User SampleSeed.seeded = User SampleSeed.db
  /\ (forall n, In n (catalog_names SampleSeed.seeded)
                <-> In n (name <$> PERMISSIONS))
  /\ (forall id d, Permission SampleSeed.db !! id = Some d ->
        if wanted_name PERMISSIONS d
        then exists d', Permission SampleSeed.seeded !! id = Some d'
                        /\ name d' = name d
        else Permission SampleSeed.seeded !! id = None)
  /\ (NoDup (catalog_names SampleSeed.db) ->
      catalog_names SampleSeed.seeded ≡ₚ name <$> PERMISSIONS).
Proof.
  apply (initializePermissions_catalog SampleSeed.newObjectId
           SampleMore.schema_ok SampleSeed.db SampleSeed.seeded).
  vm_compute. reflexivity.
Defined.

Lemma initializePermissions_idempotent_witness :
  initializePermissions SampleSeed.newObjectId SampleMore.schema_ok
                        SampleSeed.seeded
  = (SampleSeed.seeded, true).
Proof.
  apply (initializePermissions_idempotent SampleSeed.newObjectId
           SampleMore.schema_ok SampleSeed.db SampleSeed.seeded).
  - apply (bool_decide_unpack _). vm_compute. reflexivity.
  - vm_compute. reflexivity.
Defined.

End OnSampleSeed.
